(** * Pairwise ranker: a shallow embedding of [tools/train_ranker.py] and
    [tools/make_applicants_jsonl.py].

    Python floats are IEEE-754 binary64 values.  They are modelled by the
    Standard Library's [spec_float] at precision 53 and maximal exponent 1024,
    whose operations are plain Gallina functions: every sum, product and
    comparison below rounds exactly as CPython's does.  NaN payloads are not
    tracked ([S754_nan] is the only NaN).  The theorems quantify over every
    [spec_float], the representations of binary64 values among them.

    A Python [str] is modelled by the string of its UTF-8 bytes, the
    encoding in which both scripts read and write their files.

    Calls into the Python runtime whose result the repository does not define
    ([math.exp], [math.log1p], [sum], [float] on a string, [round],
    [json.loads], [ast.literal_eval], [repr]) are variables of the sections
    that embed their callers. *)

From Stdlib Require Import ZArith SpecFloat Ascii.
From stdpp Require Import gmap strings list pretty.

Open Scope Z_scope.

Set Warnings "-register-all".

(** ** Binary64 arithmetic *)

Module F64.

Definition float : Type := spec_float.

Definition prec : Z := 53.
Definition emax : Z := 1024.

Definition add : float -> float -> float := SFadd prec emax.
Definition sub : float -> float -> float := SFsub prec emax.
Definition mul : float -> float -> float := SFmul prec emax.
Definition div_ieee : float -> float -> float := SFdiv prec emax.
Definition neg : float -> float := SFopp.
Definition ltb : float -> float -> bool := SFltb.

(** [float(n)] for a Python int that fits: round to nearest, ties to even. *)
Definition of_int (n : Z) : float := binary_normalize prec emax n 0 false.

Definition is_nan (x : float) : bool :=
  match x with S754_nan => true | _ => false end.
Definition is_inf (x : float) : bool :=
  match x with S754_infinity _ => true | _ => false end.
Definition is_zero (x : float) : bool :=
  match x with S754_zero _ => true | _ => false end.
(** [math.isfinite]: neither NaN nor an infinity. *)
Definition is_finite (x : float) : bool := negb (is_nan x || is_inf x).

(** The literals of the sources, as the binary64 values CPython reads. *)
Definition zero : float := S754_zero false.
Definition nzero : float := S754_zero true.
Definition nan : float := S754_nan.
Definition one : float := Eval vm_compute in of_int 1.
Definition mone : float := Eval vm_compute in of_int (-1).
Definition two : float := Eval vm_compute in of_int 2.
Definition half : float := Eval vm_compute in div_ieee (of_int 1) (of_int 2).
Definition f35 : float := Eval vm_compute in of_int 35.
Definition fm35 : float := Eval vm_compute in of_int (-35).

(** A decimal literal [m / 10^k], correctly rounded (one division of two
    exact integers). *)
Definition pow10 (k : nat) : positive := Z.to_pos (10 ^ Z.of_nat k).

Definition dec (m : Z) (k : nat) : float :=
  match m with
  | Z0 => zero
  | Zpos p => div_ieee (S754_finite false p 0) (S754_finite false (pow10 k) 0)
  | Zneg p => div_ieee (S754_finite true p 0) (S754_finite false (pow10 k) 0)
  end.

End F64.

Import F64 (float).

Arguments F64.add : simpl never.
Arguments F64.sub : simpl never.
Arguments F64.mul : simpl never.
Arguments F64.div_ieee : simpl never.
Arguments F64.ltb : simpl never.
Arguments F64.of_int : simpl never.

Declare Scope f64_scope.
Delimit Scope f64_scope with f64.
Bind Scope f64_scope with F64.float.
Infix "+" := F64.add : f64_scope.
Infix "-" := F64.sub : f64_scope.
Infix "*" := F64.mul : f64_scope.
Notation "- x" := (F64.neg x) : f64_scope.
Infix "<?" := F64.ltb : f64_scope.

(** ** Exceptions *)

(** The exceptions the two scripts can meet.  [SystemExit] is the only one
    the repository raises itself; the others come out of the runtime. *)
Inductive exn : Type :=
  | SystemExit (msg : string)
  | IndexError
  | OverflowError
  | ValueError
  | ZeroDivisionError
  | TypeError
  | AttributeError
  | RecursionError.

Inductive result (A : Type) : Type :=
  | Ok (a : A)
  | Raise (e : exn).
Arguments Ok {A} a.
Arguments Raise {A} e.

#[global] Instance result_ret : MRet result := fun A a => Ok a.
#[global] Instance result_bind : MBind result := fun A B k r =>
  match r with
  | Ok a => k a
  | Raise e => Raise e
  end.

Definition is_Ok {A} (r : result A) : Prop := exists a, r = Ok a.

(** The value a runtime call returned, or the exception it stands for. *)
Definition or_raise {A} (e : exn) (o : option A) : result A :=
  match o with
  | Some a => Ok a
  | None => Raise e
  end.

(** [a / b] on Python floats: a zero divisor raises, otherwise IEEE. *)
Definition truediv (a b : float) : result float :=
  if F64.is_zero b then Raise ZeroDivisionError else Ok (F64.div_ieee a b).

(** [l[k]] for a non-negative index. *)
Definition getitem {A} (l : list A) (k : nat) : result A :=
  match l !! k with
  | Some x => Ok x
  | None => Raise IndexError
  end.

(** ** Python values and the builtins the scripts call *)

(** What [json.loads] and [ast.literal_eval] can return.  A JSON object is a
    dict with string keys; the key order of a dict is not represented. *)
Inductive pyval : Type :=
  | PNone
  | PBool (b : bool)
  | PInt (z : Z)
  | PFloat (f : float)
  | PStr (s : string)
  | PBytes (s : string)
  | PList (l : list pyval)
  | PTuple (l : list pyval)
  | PDict (d : gmap string pyval).

(** A row of [csv.DictReader]: a header name is bound to the cell, or to
    [None] when the row is shorter than the header. *)
Abbreviation csv_row := (gmap string (option string)).

(** [except Exception] does not catch [SystemExit]. *)
Definition is_Exception (e : exn) : bool :=
  match e with
  | SystemExit _ => false
  | _ => true
  end.

(** [try: ... except Exception: continue]; [None] is the [continue]. *)
Definition except_Exception {A} (r : result A) : result (option A) :=
  match r with
  | Ok a => Ok (Some a)
  | Raise e => if is_Exception e then Ok None else Raise e
  end.

(** The truth value of a string: non-empty. *)
Definition truthy (s : string) : bool :=
  match s with
  | EmptyString => false
  | String _ _ => true
  end.

(** The UTF-8 bytes of the character with code point [c]. *)
Definition utf8_char (c : N) : string :=
  let byte (n : N) : string := String (ascii_of_N n) EmptyString in
  let cont (n : N) : string := byte (128 + n mod 64)%N in
  if (c <? 128)%N then byte c
  else if (c <? 2048)%N then byte (192 + c / 64)%N +:+ cont c
  else if (c <? 65536)%N then
    byte (224 + c / 4096)%N +:+ cont (c / 64)%N +:+ cont c
  else
    byte (240 + c / 262144)%N +:+ cont (c / 4096)%N +:+ cont (c / 64)%N +:+ cont c.

(** The code points of which [str.isspace] holds: the ASCII controls
    U+0009 to U+000D and U+001C to U+001F, the space, U+0085, U+00A0, U+1680,
    U+2000 to U+200A, U+2028, U+2029, U+202F, U+205F and U+3000. *)
Definition white_space : list N :=
  [9; 10; 11; 12; 13; 28; 29; 30; 31; 32; 133; 160; 5760;
   8192; 8193; 8194; 8195; 8196; 8197; 8198; 8199; 8200; 8201; 8202;
   8232; 8233; 8239; 8287; 12288]%N.

(** [c.isspace()], for the character [c] whose UTF-8 bytes are [s]. *)
Definition is_space (s : string) : bool :=
  bool_decide (s ∈ map utf8_char white_space).

(** The text [s] without the white space characters it starts with, each
    one to three bytes long.  With [backwards] the bytes of [s] are those of
    a text read from its end, and so are the bytes of each character. *)
Fixpoint skip_space (backwards : bool) (s : string) : string :=
  match s with
  | EmptyString => EmptyString
  | String a s1 =>
      if is_space (String a EmptyString) then skip_space backwards s1
      else
        match s1 with
        | EmptyString => s
        | String b s2 =>
            if is_space (if backwards then String b (String a EmptyString)
                         else String a (String b EmptyString))
            then skip_space backwards s2
            else
              match s2 with
              | EmptyString => s
              | String c s3 =>
                  if is_space
                       (if backwards then String c (String b (String a EmptyString))
                        else String a (String b (String c EmptyString)))
                  then skip_space backwards s3
                  else s
              end
        end
  end.

(** [s.lstrip()] and [s.rstrip()] *)
Definition lstrip (s : string) : string := skip_space false s.

Definition rstrip (s : string) : string :=
  String.rev (skip_space true (String.rev s)).

(** [s.strip()] *)
Definition strip (s : string) : string := rstrip (lstrip s).

(** [float(n)] on an int: [OverflowError] when it rounds out of range. *)
Definition float_of_int (n : Z) : result float :=
  let r := F64.of_int n in
  if F64.is_inf r then Raise OverflowError else Ok r.

(** [int(x)] on a float: truncation toward zero. *)
Definition int_of_float (x : float) : result Z :=
  match x with
  | S754_nan => Raise ValueError
  | S754_infinity _ => Raise OverflowError
  | S754_zero _ => Ok 0
  | S754_finite s m e =>
      let a := if 0 <=? e then Z.shiftl (Zpos m) e else Z.shiftr (Zpos m) (- e) in
      Ok (if s then - a else a)
  end.

Section Coercions.

(** [float(s)] on a string; [None] stands for its [ValueError]. *)
Variable float_of_str : string -> option float.
(** [repr] of a float or a container. *)
Variable py_repr : pyval -> string.

(** [float(v)] *)
Definition py_float (v : pyval) : result float :=
  match v with
  | PBool b => Ok (if b then F64.one else F64.zero)
  | PInt z => float_of_int z
  | PFloat f => Ok f
  | PStr s | PBytes s => or_raise ValueError (float_of_str s)
  | PNone | PList _ | PTuple _ | PDict _ => Raise TypeError
  end.

(** [str(v)] *)
Definition py_str (v : pyval) : string :=
  match v with
  | PNone => "None"
  | PBool true => "True"
  | PBool false => "False"
  | PInt z => pretty z
  | PStr s => s
  | PFloat _ | PBytes _ | PList _ | PTuple _ | PDict _ => py_repr v
  end.

End Coercions.

(** ** tools/train_ranker.py *)

Module TrainRanker.

Section Loaders.

(** [json.loads] returns a value or raises: a [ValueError] on a text that
    is not JSON, a [RecursionError] on one nested too deeply. *)
Variable json_loads : string -> result pyval.
Variable float_of_str : string -> option float.
Variable py_repr : pyval -> string.

(** [obj.get(k)]: only a dict has the method. *)
Definition obj_get (obj : pyval) (k : string) : result pyval :=
  match obj with
  | PDict d => Ok (default PNone (d !! k))
  | _ => Raise AttributeError
  end.

(** Lines 29-36: what a line contributes, [None] when it is passed over by
    a [continue]. *)
Definition applicant_entry (line : string) : result (option (string * list float)) :=
  let line := strip line in
  if decide (line = "") then Ok None
  else
    obj ← json_loads line;
    id_v ← obj_get obj "id";
    let id_ := py_str py_repr id_v in
    x ← obj_get obj "features";
    if decide (id_ = "") then Ok None
    else
      match x with
      | PList l =>
          fl ← mapM (py_float float_of_str) l;
          Ok (Some (id_, fl))
      | _ => Ok None
      end.

(** Lines 29-37: the body of the loop over the lines of the file. *)
Definition applicant_step (id2x : gmap string (list float)) (line : string)
    : result (gmap string (list float)) :=
  entry ← applicant_entry line;
  match entry with
  | Some (id_, fl) => Ok (<[id_ := fl]> id2x)
  | None => Ok id2x
  end.

Fixpoint load_applicants_loop (id2x : gmap string (list float)) (lines : list string)
    : result (gmap string (list float)) :=
  match lines with
  | [] => Ok id2x
  | line :: rest =>
      id2x' ← applicant_step id2x line;
      load_applicants_loop id2x' rest
  end.

Definition load_applicants_jsonl (lines : list string)
    : result (gmap string (list float)) :=
  load_applicants_loop ∅ lines.

(** [str(r.get(k, ""))] *)
Definition field_str (r : csv_row) (k : string) : string :=
  match r !! k with
  | None => ""
  | Some None => "None"
  | Some (Some s) => s
  end.

(** [int(float(y))] for [y = r.get("y", "")] *)
Definition label_int (r : csv_row) : result Z :=
  match default (Some "") (r !! "y") with
  | None => Raise TypeError
  | Some s => f ← or_raise ValueError (float_of_str s); int_of_float f
  end.

(** Lines 46-57: the body of the loop over the rows; [None] is [continue]. *)
Definition pair_of_row (r : csv_row) : result (option (string * string * Z)) :=
  let i := field_str r "i" in
  let j := field_str r "j" in
  if decide (i = "" ∨ j = "") then Ok None
  else
    oy ← except_Exception (label_int r);
    match oy with
    | None => Ok None
    | Some y => if decide (y = 0 ∨ y = 1) then Ok (Some (i, j, y)) else Ok None
    end.

(** The decision of [pair_of_row] written without the exception: the
    triple a row yields, if any. *)
Definition kept_pair (r : csv_row) : option (string * string * Z) :=
  if decide (field_str r "i" = "" \/ field_str r "j" = "") then None
  else
    match label_int r with
    | Ok y => if decide (y = 0 \/ y = 1) then Some (field_str r "i", field_str r "j", y) else None
    | Raise _ => None
    end.

(** The row [i, j, y] of a pairs file. *)
Definition pairs_row (i j y : string) : csv_row :=
  <["i" := Some i]> (<["j" := Some j]> (<["y" := Some y]> ∅)).

Fixpoint load_pairs_loop (pairs : list (string * string * Z)) (rows : list csv_row)
    : result (list (string * string * Z)) :=
  match rows with
  | [] => Ok pairs
  | r :: rest =>
      op ← pair_of_row r;
      match op with
      | Some p => load_pairs_loop (pairs ++ [p]) rest
      | None => load_pairs_loop pairs rest
      end
  end.

Definition load_pairs_csv (rows : list csv_row) : result (list (string * string * Z)) :=
  load_pairs_loop [] rows.

End Loaders.

(** The accumulators of one pass over the pairs: [w], [b], [loss], [n]. *)
Record pass : Type := Pass {
  cur_w : list float;
  cur_b : float;
  cur_loss : float;
  cur_n : Z
}.

(** What the [print] at the end of an epoch shows. *)
Record report : Type := Report {
  rep_ep : Z;
  rep_avg_loss : float;
  rep_l2term : float;
  rep_used_pairs : Z
}.

Definition no_usable_pairs : string :=
  "No usable pairs (IDs not found in applicants.jsonl?).".

Section Trainer.

(** [math.exp] and [math.log1p] return a float or raise: [None] stands for
    the [OverflowError] of [math.exp] out of range and for the [ValueError]
    of [math.log1p] at or below -1.  [sum] is the builtin over a list of
    floats (started from the int 0, which the float it is next added to or
    multiplied by absorbs as 0.0). *)
Variable math_exp : float -> option float.
Variable math_log1p : float -> option float.
Variable py_sum : list float -> float.

Definition dot (a b : list float) : float :=
  py_sum (zip_with F64.mul a b).

(** Lines 89-91, the branch taken when [-35 <= z <= 35] (or [z] is NaN). *)
Definition logistic_safe (z : float) : result (float * float) :=
  e1 ← or_raise OverflowError (math_exp (- z)%f64);
  ell ← or_raise ValueError (math_log1p e1);
  e2 ← or_raise OverflowError (math_exp z);
  sig ← truediv F64.one (F64.one + e2)%f64;
  Ok (ell, sig).

(** Lines 83-91: loss contribution [ell] and gradient-sigmoid term [sig]. *)
Definition loss_sig (z : float) : result (float * float) :=
  if (F64.f35 <? z)%f64 then Ok (F64.zero, F64.zero)
  else if (z <? F64.fm35)%f64 then Ok ((- z)%f64, F64.one)
  else logistic_safe z.

(** Line 98, the new value of [w[k]]: [w[k] - lr * (gscale * dx[k] + l2 * w[k])]. *)
Definition stepped (lr l2 gscale wk dxk : float) : float :=
  (wk - lr * (gscale * dxk + l2 * wk))%f64.

(** Lines 97-98: [for k in range(dim): w[k] -= ...]. *)
Fixpoint update_w (lr l2 gscale : float) (dx : list float) (ks : list nat)
    (w : list float) : result (list float) :=
  match ks with
  | [] => Ok w
  | k :: ks' =>
      wk ← getitem w k;
      dxk ← getitem dx k;
      update_w lr l2 gscale dx ks' (<[k := stepped lr l2 gscale wk dxk]> w)
  end.

Definition range (n : Z) : list nat := seq 0 (Z.to_nat n).

(** Lines 72-99: the body of the loop over [pairs]. *)
Definition pair_step (id2x : gmap string (list float)) (dim : Z) (lr l2 : float)
    (st : pass) (p : string * string * Z) : result pass :=
  let '(i, j, y01) := p in
  match id2x !! i, id2x !! j with
  | Some xi, Some xj =>
      let y := if Z.eqb y01 1 then F64.one else F64.mone in
      let dx := zip_with F64.sub xi xj in
      let s := (dot (cur_w st) dx + cur_b st)%f64 in
      let z := (y * s)%f64 in
      '(ell, sig) ← loss_sig z;
      let gscale := (- y * sig)%f64 in
      w' ← update_w lr l2 gscale dx (range dim) (cur_w st);
      Ok {| cur_w := w';
            cur_b := (cur_b st - lr * gscale)%f64;
            cur_loss := (cur_loss st + ell)%f64;
            cur_n := cur_n st + 1 |}
  | _, _ => Ok st
  end.

Fixpoint run_pairs (id2x : gmap string (list float)) (dim : Z) (lr l2 : float)
    (st : pass) (pairs : list (string * string * Z)) : result pass :=
  match pairs with
  | [] => Ok st
  | p :: rest =>
      st' ← pair_step id2x dim lr l2 st p;
      run_pairs id2x dim lr l2 st' rest
  end.

(** Lines 70-105: one epoch, from the current [(w, b)]. *)
Definition epoch (id2x : gmap string (list float)) (pairs : list (string * string * Z))
    (dim : Z) (lr l2 : float) (ep : Z) (wb : list float * float)
    : result (list float * float * report) :=
  st ← run_pairs id2x dim lr l2
         {| cur_w := wb.1; cur_b := wb.2; cur_loss := F64.zero; cur_n := 0 |} pairs;
  if Z.eqb (cur_n st) 0 then Raise (SystemExit no_usable_pairs)
  else
    let l2term := (F64.half * l2 * py_sum (map (fun v => v * v) (cur_w st)))%f64 in
    (* [loss / n]: [n] is positive here and a count converts exactly *)
    Ok (cur_w st, cur_b st,
        {| rep_ep := ep;
           rep_avg_loss := F64.div_ieee (cur_loss st) (F64.of_int (cur_n st));
           rep_l2term := l2term;
           rep_used_pairs := cur_n st |}).

(** The loop over [range(1, epochs + 1)]; the reports printed so far are
    kept when an epoch raises. *)
Fixpoint run_epochs (id2x : gmap string (list float)) (pairs : list (string * string * Z))
    (dim : Z) (lr l2 : float) (eps : list Z) (wb : list float * float)
    (log : list report) : list report * result (list float * float) :=
  match eps with
  | [] => (log, Ok wb)
  | ep :: eps' =>
      match epoch id2x pairs dim lr l2 ep wb with
      | Raise e => (log, Raise e)
      | Ok (wb', r) => run_epochs id2x pairs dim lr l2 eps' wb' (log ++ [r])
      end
  end.

Definition train (id2x : gmap string (list float)) (pairs : list (string * string * Z))
    (dim : Z) (lr : float) (epochs : Z) (l2 : float)
    : list report * result (list float * float) :=
  run_epochs id2x pairs dim lr l2
    (map (fun k => Z.of_nat k) (seq 1 (Z.to_nat epochs)))
    (replicate (Z.to_nat dim) F64.zero, F64.zero) [].

End Trainer.

(** A pair is usable when both of its identifiers are in the feature map. *)
Definition usable (id2x : gmap string (list float)) (p : string * string * Z) : Prop :=
  is_Some (id2x !! p.1.1) /\ is_Some (id2x !! p.1.2).

#[global] Instance usable_dec id2x p : Decision (usable id2x p).
Proof. unfold usable. apply _. Defined.

(** The caller's side of the contract: every vector of the feature map has
    at least [dim] entries. *)
Definition vectors_cover (id2x : gmap string (list float)) (dim : Z) : Prop :=
  forall i x, id2x !! i = Some x -> (Z.to_nat dim <= length x)%nat.

(** The runtime's side: for a margin that passed both guards, [exp(-z)],
    [log1p] of it and [exp(z)] return, and [1 + exp(z)] is not zero. *)
Definition libm_guarded (math_exp math_log1p : float -> option float) : Prop :=
  forall z, (F64.f35 <? z)%f64 = false -> (z <? F64.fm35)%f64 = false ->
    exists e1 ell e2,
      math_exp (- z)%f64 = Some e1 /\ math_log1p e1 = Some ell
      /\ math_exp z = Some e2 /\ F64.is_zero (F64.one + e2)%f64 = false.

(** The state a pass starts from in the first epoch. *)
Definition first_pass (dim : Z) : pass :=
  {| cur_w := replicate (Z.to_nat dim) F64.zero; cur_b := F64.zero;
     cur_loss := F64.zero; cur_n := 0 |}.

(** The feature map of the scenario [{"a": [1, 0], "b": [0, 1]}]. *)
Definition scenario_map : gmap string (list float) :=
  <["a" := [F64.one; F64.zero]]> (<["b" := [F64.zero; F64.one]]> ∅).

Section SaveModel.

(** [round(x, ndigits)] on a float and [json.dumps(obj, indent=2)]. *)
Variable py_round : float -> Z -> float.
Variable json_dumps : pyval -> string.

(** Lines 111-116: the dict [obj]. *)
Definition model_obj (feature_version : Z) (w : list float) (b : float) : gmap string pyval :=
  <["bias" := PFloat (py_round b 12)]>
  (<["weights" := PList (map (fun v => PFloat (py_round v 12)) w)]>
  (<["dim" := PInt (Z.of_nat (length w))]>
  (<["feature_version" := PInt feature_version]> ∅))).

(** [path.write_text(...)] on a file system that maps a path to its text. *)
Definition save_model (fs : gmap string string) (path : string) (feature_version : Z)
    (w : list float) (b : float) : gmap string string :=
  <[path := json_dumps (PDict (model_obj feature_version w b))]> fs.

End SaveModel.

(** What [argparse] hands to [main]. *)
Record args : Type := Args {
  arg_applicants : string;
  arg_pairs : string;
  arg_out : string;
  arg_feature_version : Z;
  arg_dim : Z;
  arg_lr : float;
  arg_epochs : Z;
  arg_l2 : float
}.

(** The lines [main] and [train] print. *)
Inductive stdout_line : Type :=
  | Loaded (applicants labeled_pairs : Z)
  | EpochLine (r : report)
  | Wrote (path : string).

Section Main.

Variable json_loads : string -> result pyval.
Variable float_of_str : string -> option float.
Variable py_repr : pyval -> string.
Variable math_exp : float -> option float.
Variable math_log1p : float -> option float.
Variable py_sum : list float -> float.
Variable py_round : float -> Z -> float.
Variable json_dumps : pyval -> string.

(** Lines 131-137, on the lines of the applicants file and the rows of the
    pairs file that [args] names (both files exist): the file system and the
    printed lines it leaves, and whether it returned. *)
Definition main (a : args) (applicants : list string) (pairs : list csv_row)
    (fs : gmap string string) : gmap string string * list stdout_line * result () :=
  match load_applicants_jsonl json_loads float_of_str py_repr applicants with
  | Raise e => (fs, [], Raise e)
  | Ok id2x =>
      match load_pairs_csv float_of_str pairs with
      | Raise e => (fs, [], Raise e)
      | Ok ps =>
          let loaded := Loaded (Z.of_nat (size id2x)) (Z.of_nat (length ps)) in
          match train math_exp math_log1p py_sum id2x ps
                  (arg_dim a) (arg_lr a) (arg_epochs a) (arg_l2 a) with
          | (log, Raise e) => (fs, loaded :: map EpochLine log, Raise e)
          | (log, Ok (w, b)) =>
              (save_model py_round json_dumps fs (arg_out a) (arg_feature_version a) w b,
               loaded :: map EpochLine log ++ [Wrote (arg_out a)],
               Ok ())
          end
      end
  end.

End Main.

End TrainRanker.

(** ** tools/make_applicants_jsonl.py: the feature-map adapter *)

Module MakeApplicants.

Inductive id_mode : Type := uni_timestamp | row.

(** What the loop of [main] has written and counted so far. *)
Record tally : Type := Tally {
  out : list pyval;
  n_ok : Z;
  n_skip : Z
}.

Fixpoint first (r : csv_row) (keys : list string) (default : string) : string :=
  match keys with
  | [] => default
  | k :: keys' =>
      match r !! k with
      | Some (Some v) => v
      | _ => first r keys' default
      end
  end.

Section Adapter.

(** [json.loads] and [ast.literal_eval]; [None] stands for any exception
    they raise, which [parse_features] swallows. *)
Variable json_loads : string -> option pyval.
Variable literal_eval : string -> option pyval.
Variable float_of_str : string -> option float.

Definition parse_features (s : string) : option (list pyval) :=
  let s := strip s in
  if decide (s = "") then None
  else
    match json_loads s with
    | Some (PList v) => Some v
    | _ =>
        match literal_eval s with
        | Some (PList v) => Some v
        | _ => None
        end
    end.

Definition applicant_id (mode : id_mode) (uni timestamp : string) (idx : Z) : string :=
  let by_uni := match mode with uni_timestamp => true | row => false end in
  if by_uni && truthy uni && truthy timestamp then uni +:+ "_" +:+ timestamp
  else if by_uni && truthy uni then uni +:+ "_" +:+ pretty idx
  else pretty idx.

(** Lines 90-106: the dict [meta]. *)
Definition meta_of (r : csv_row) (full_name uni : string) : gmap string pyval :=
  <["essayCommunity" := PStr (first r ["essayCommunity"] "")]>
  (<["essayMath" := PStr (first r ["essayMath"] "")]>
  (<["resume_chars" := PStr (strip (first r ["resume_chars"] ""))]>
  (<["feature_version" := PStr (strip (first r ["feature_version"] ""))]>
  (<["raw_score" := PStr (strip (first r ["raw_score"; "raw"] ""))]>
  (<["score_0_10" := PStr (strip (first r ["score_0_10"] ""))]>
  (<["courses" := PStr (strip (first r ["courses"] ""))]>
  (<["calc12" := PStr (strip (first r ["calc12"; "calcVal"] ""))]>
  (<["gpa" := PStr (strip (first r ["gpa"] ""))]>
  (<["raceEth" := PStr (strip (first r ["raceEth"] ""))]>
  (<["schoolYear" := PStr (strip (first r ["schoolYear"; "schoolYearText"] ""))]>
  (<["email" := PStr (strip (first r ["email"] ""))]>
  (<["uni" := PStr uni]>
  (<["name" := PStr full_name]> ∅))))))))))))).

(** Lines 79-108: the dict [obj] written for a row that passed the checks. *)
Definition applicant_obj (mode : id_mode) (idx : Z) (r : csv_row) (feats : list float)
    : pyval :=
  let timestamp := strip (first r ["timestamp"] "") in
  let uni := strip (first r ["uni"] "") in
  let full_name := strip (first r ["fullName"; "fullname"; "name"] "") in
  PDict (<["meta" := PDict (meta_of r full_name uni)]>
        (<["features" := PList (map PFloat feats)]>
        (<["id" := PStr (applicant_id mode uni timestamp idx)]> ∅))).

(** Lines 61-77: the features of a row, or [None] when the row is skipped. *)
Definition row_features (r : csv_row) : result (option (list float)) :=
  let features_raw := first r ["features_json"; "features"; "featuresJson"] "" in
  match parse_features features_raw with
  | None | Some [] => Ok None
  | Some feats =>
      ofl ← except_Exception (mapM (py_float float_of_str) feats);
      match ofl with
      | None => Ok None
      | Some fl => if decide (Z.of_nat (length fl) ≠ 21) then Ok None else Ok (Some fl)
      end
  end.

(** Lines 57-110: the loop over [enumerate(r, start=1)]. *)
Fixpoint main_loop (mode : id_mode) (idx : Z) (rows : list csv_row) (t : tally)
    : result tally :=
  match rows with
  | [] => Ok t
  | r :: rest =>
      fo ← row_features r;
      match fo with
      | None =>
          main_loop mode (idx + 1) rest
            {| out := out t; n_ok := n_ok t; n_skip := n_skip t + 1 |}
      | Some feats =>
          main_loop mode (idx + 1) rest
            {| out := out t ++ [applicant_obj mode idx r feats];
               n_ok := n_ok t + 1; n_skip := n_skip t |}
      end
  end.

(** [main] on the rows of an existing CSV: the objects written, one per
    line of the output, and the two counters. *)
Definition main (mode : id_mode) (rows : list csv_row) : result tally :=
  main_loop mode 1 rows {| out := []; n_ok := 0; n_skip := 0 |}.

(** The rule the adapter is to follow, in the words of the specification: a
    row yields its features when the features field parses to a list, every
    entry coerces to a float and there are exactly 21 of them; any other row
    yields nothing. *)
Definition accepted_features (r : csv_row) : option (list float) :=
  match parse_features (first r ["features_json"; "features"; "featuresJson"] "") with
  | None => None
  | Some feats =>
      match mapM (py_float float_of_str) feats with
      | Raise _ => None
      | Ok fl => if decide (length fl = 21%nat) then Some fl else None
      end
  end.

End Adapter.

(** An emitted record: a dict with a string [id] and a [features] list of
    exactly 21 floats. *)
Definition has_21_features (o : pyval) : Prop :=
  exists d id_ feats,
    o = PDict d /\ d !! "id" = Some (PStr id_)
    /\ d !! "features" = Some (PList (map PFloat feats))
    /\ length feats = 21%nat.

(** The identifier an emitted record carries. *)
Definition record_id (o : pyval) : option string :=
  match o with
  | PDict d =>
      match d !! "id" with
      | Some (PStr s) => Some s
      | _ => None
      end
  | _ => None
  end.

(** The features an emitted record carries. *)
Definition record_features (o : pyval) : option (list pyval) :=
  match o with
  | PDict d =>
      match d !! "features" with
      | Some (PList l) => Some l
      | _ => None
      end
  | _ => None
  end.

End MakeApplicants.

(** ** Executable stand-ins for the runtime

    Concrete functions to run the embedding on: the two summation orders
    CPython has used for [sum] over floats, a decimal reader for [float] on a
    string, decimal rounding for [round], truncated series for the two libm
    calls, and a decoder given by a finite table of documents. *)

Module Runtime.

(** [sum] up to CPython 3.11: left to right. *)
Definition sum_left (l : list float) : float :=
  fold_left F64.add l F64.zero.

(** [sum] from CPython 3.12 on: Neumaier's compensated summation. *)
Fixpoint neumaier (l : list float) (f_result c : float) : float * float :=
  match l with
  | [] => (f_result, c)
  | x :: l' =>
      let t := (f_result + x)%f64 in
      let c' :=
        if SFleb (SFabs x) (SFabs f_result)
        then (c + ((f_result - t) + x))%f64
        else (c + ((x - t) + f_result))%f64 in
      neumaier l' t c'
  end.

Definition sum_neumaier (l : list float) : float :=
  let '(f_result, c) := neumaier l F64.zero F64.zero in
  if negb (F64.is_zero c) && F64.is_finite c then (f_result + c)%f64 else f_result.

(** The largest argument [math.exp] accepts, 709.782712893384. *)
Definition exp_max : float := Eval vm_compute in F64.dec 709782712893384 12.

Fixpoint exp_series (fuel : nat) (k : Z) (x : float) : float :=
  match fuel with
  | O => F64.one
  | S fuel' =>
      (F64.one + F64.div_ieee x (F64.of_int k) * exp_series fuel' (k + 1) x)%f64
  end.

(** A partial sum is kept when it lies where [exp] does: above -1 and with
    [1 + t] non-zero; otherwise 1 replaces it. *)
Definition in_exp_range (t : float) : bool :=
  (F64.mone <? t)%f64 && negb (F64.is_zero (F64.one + t)%f64).

Definition exp_ref (x : float) : option float :=
  if F64.is_nan x then Some F64.nan
  else if (exp_max <? x)%f64 then None
  else
    let t :=
      if (x <? F64.zero)%f64
      then F64.div_ieee F64.one (exp_series 160 1 (- x)%f64)
      else exp_series 160 1 x in
    Some (if in_exp_range t then t else F64.one).

(** [log(1 + x) = 2 * atanh(x / (2 + x))], by the series of [atanh]. *)
Fixpoint atanh_series (fuel : nat) (k : Z) (y2 : float) : float :=
  match fuel with
  | O => F64.zero
  | S fuel' =>
      (F64.div_ieee F64.one (F64.of_int k) + y2 * atanh_series fuel' (k + 2) y2)%f64
  end.

Definition log1p_ref (x : float) : option float :=
  if F64.is_nan x then Some F64.nan
  else if (F64.mone <? x)%f64 then
    let y := F64.div_ieee x (F64.two + x)%f64 in
    Some (F64.two * (y * atanh_series 60 1 (y * y)))%f64
  else None.

(** [float(s)] on a plain decimal: sign, digits, at most one point. *)
Definition digit_val (a : ascii) : option Z :=
  let c := N_of_ascii a in
  if ((48 <=? c) && (c <=? 57))%N then Some (Z.of_N c - 48) else None.

Fixpoint digits (s : string) (acc : Z) : option Z :=
  match s with
  | EmptyString => Some acc
  | String a s' => d ← digit_val a; digits s' (10 * acc + d)
  end.

Fixpoint split_point (s : string) : string * string :=
  match s with
  | EmptyString => (EmptyString, EmptyString)
  | String a s' =>
      if Ascii.eqb a "." then (EmptyString, s')
      else let '(ip, fp) := split_point s' in (String a ip, fp)
  end.

Definition float_of_decimal (s : string) : option float :=
  let s := strip s in
  let '(negative, body) :=
    match s with
    | String "-" r => (true, r)
    | String "+" r => (false, r)
    | _ => (false, s)
    end in
  let '(ip, fp) := split_point body in
  if decide (ip = "" ∧ fp = "") then None
  else
    m ← digits (ip +:+ fp) 0;
    let v := F64.dec m (String.length fp) in
    Some (if negative then (- v)%f64 else v).

(** [round(x, ndigits)] for [ndigits >= 0]: ties to even on the exact
    value, then the nearest double. *)
Definition round_ref (x : float) (ndigits : Z) : float :=
  match x with
  | S754_finite s m e =>
      if 0 <=? e then x
      else
        let N := Zpos m * 10 ^ ndigits in
        let D := 2 ^ (- e) in
        let q := N / D in
        let r := N mod D in
        let q' := if (D <? 2 * r) || ((2 * r =? D) && Z.odd q) then q + 1 else q in
        let v := if q' =? 0 then F64.zero else F64.dec q' (Z.to_nat ndigits) in
        if s then (- v)%f64 else v
  | _ => x
  end.

(** A decoder that knows finitely many documents. *)
Definition loads_table (docs : gmap string pyval) (s : string) : option pyval :=
  docs !! s.

(** The same decoder where its exception is not swallowed: a text it does
    not know is not JSON to it. *)
Definition loads_or_raise (docs : gmap string pyval) (s : string) : result pyval :=
  or_raise ValueError (loads_table docs s).

End Runtime.

(** ** Sample inputs *)

Module Samples.

(** The double quote, which a JSON text needs around its keys. *)
Definition dq : string := String (ascii_of_nat 34) EmptyString.

(** The line [{"features": [1, 2]}]: a record with no id. *)
Definition line_no_id : string :=
  "{" +:+ dq +:+ "features" +:+ dq +:+ ": [1, 2]}".

(** The line [{"id": null, "features": [3]}]: a record with a null id. *)
Definition line_null_id : string :=
  "{" +:+ dq +:+ "id" +:+ dq +:+ ": null, " +:+ dq +:+ "features" +:+ dq +:+ ": [3]}".

Definition obj_no_id : gmap string pyval :=
  <["features" := PList [PInt 1; PInt 2]]> ∅.

Definition obj_null_id : gmap string pyval :=
  <["id" := PNone]> (<["features" := PList [PInt 3]]> ∅).

(** The text of a 21-entry features cell and the list it decodes to. *)
Definition features_text : string :=
  "[1, 2, 3, 4, 5, 6, 7, 8, 9, 10, 11, 12, 13, 14, 15, 16, 17, 18, 19, 20, 21]".

Definition features_list : list pyval :=
  map (fun k => PInt (Z.of_nat k)) (seq 1 21).

Definition docs : gmap string pyval :=
  <[line_no_id := PDict obj_no_id]>
  (<[line_null_id := PDict obj_null_id]>
  (<[features_text := PList features_list]>
  (<["[1, 2]" := PList [PInt 1; PInt 2]]> ∅))).

(** Three rows of a submissions sheet: complete, two features only, and no
    features cell at all. *)
Definition row_full : csv_row :=
  <["features_json" := Some features_text]>
  (<["uni" := Some "ab1234"]> (<["timestamp" := Some "2024-01-05"]> ∅)).

Definition row_short : csv_row :=
  <["features_json" := Some "[1, 2]"]> (<["uni" := Some "cd5678"]> ∅).

Definition row_empty : csv_row :=
  <["uni" := Some "ef9012"]> ∅.

(** The feature map of the scenario with a third applicant, whom no pair
    names. *)
Definition scenario_map_more : gmap string (list float) :=
  <["c" := [F64.of_int 7; F64.of_int 7]]> TrainRanker.scenario_map.

(** A pass that starts from the weights [[100, 0]] and the bias 0. *)
Definition leaning_pass : TrainRanker.pass :=
  {| TrainRanker.cur_w := [F64.of_int 100; F64.zero]; TrainRanker.cur_b := F64.zero;
     TrainRanker.cur_loss := F64.zero; TrainRanker.cur_n := 0 |}.

(** The double [1e200], and two applicants that far apart in one feature. *)
Definition steep : float := Eval vm_compute in F64.dec (10 ^ 200) 0.

Definition steep_map : gmap string (list float) :=
  <["a" := [steep]]> (<["b" := [(- steep)%f64]]> ∅).

(** A line that holds white space only, none of it ASCII but the tab: a
    no-break space, a tab, a line separator and an ideographic space. *)
Definition line_of_white_space : string :=
  utf8_char 160 +:+ utf8_char 9 +:+ utf8_char 8232 +:+ utf8_char 12288.

(** A line of brackets, and a decoder that gives up on it as nested too
    deeply. *)
Definition line_nested : string := "[[[[[[[[1]]]]]]]]".

Definition loads_shallow (s : string) : result pyval :=
  if decide (s = line_nested) then Raise RecursionError
  else Runtime.loads_or_raise docs s.

(** A [repr] that hides its argument. *)
Definition repr_opaque (v : pyval) : string := "<object>".

(** The 21 floats that [features_list] coerces to. *)
Definition features_floats : list float :=
  map (fun k => F64.of_int (Z.of_nat k)) (seq 1 21).

(** The record the adapter writes for [row_full] as the [idx]-th row. *)
Definition written_record (mode : MakeApplicants.id_mode) (idx : Z) : pyval :=
  MakeApplicants.applicant_obj mode idx row_full features_floats.

(** The complete row with a uni cell that holds a no-break space only. *)
Definition row_blank_uni : csv_row :=
  <["uni" := Some (utf8_char 160)]> row_full.

(** Two applicants, [a] with features [[1, 0]] and [b] with [[0, 1]], as the
    lines of an applicants file and what they decode to. *)
Definition applicant_docs : gmap string pyval :=
  <["applicant a" := PDict (<["id" := PStr "a"]> (<["features" := PList [PInt 1; PInt 0]]> ∅))]>
  (<["applicant b" := PDict (<["id" := PStr "b"]> (<["features" := PList [PInt 0; PInt 1]]> ∅))]> ∅).

(** A row of a pairs file cut short before its [i] cell. *)
Definition row_without_i : csv_row :=
  <["i" := None]> (<["j" := Some "b"]> (<["y" := Some "1"]> ∅)).

(** A row of a pairs file that has no [i] column. *)
Definition row_no_i_column : csv_row :=
  <["j" := Some "b"]> (<["y" := Some "1"]> ∅).

(** The arguments of a one-epoch run in two dimensions. *)
Definition run_args : TrainRanker.args :=
  {| TrainRanker.arg_applicants := "applicants.jsonl";
     TrainRanker.arg_pairs := "pairs.csv";
     TrainRanker.arg_out := "rank_model.json";
     TrainRanker.arg_feature_version := 2;
     TrainRanker.arg_dim := 2;
     TrainRanker.arg_lr := F64.dec 1 1;
     TrainRanker.arg_epochs := 1;
     TrainRanker.arg_l2 := F64.zero |}.

End Samples.

(** * Properties *)

(** ** The error monad *)

Lemma bind_Ok {A B} (r : result A) (k : A -> result B) (a : A) :
  r = Ok a -> (r ≫= k) = k a.
Proof. intros ->. reflexivity. Qed.

Lemma bind_Ok_inv {A B} (r : result A) (k : A -> result B) (b : B) :
  (r ≫= k) = Ok b -> exists a, r = Ok a /\ k a = Ok b.
Proof. destruct r as [a|e]; simpl; intros H; [eauto | discriminate]. Qed.

Lemma bind_Raise_inv {A B} (r : result A) (k : A -> result B) (e : exn) :
  (r ≫= k) = Raise e -> r = Raise e \/ exists a, r = Ok a /\ k a = Raise e.
Proof. destruct r as [a|e']; simpl; intros H; [right; eauto | left; congruence]. Qed.

Lemma or_raise_Ok_inv {A} (e : exn) (o : option A) (a : A) :
  or_raise e o = Ok a -> o = Some a.
Proof. destruct o; simpl; congruence. Qed.

Lemma or_raise_Raise_inv {A} (e e' : exn) (o : option A) :
  or_raise e o = Raise e' -> e' = e.
Proof. destruct o; simpl; congruence. Qed.

Lemma getitem_Ok {A} (l : list A) (k : nat) :
  (k < length l)%nat -> exists x, l !! k = Some x /\ getitem l k = Ok x.
Proof.
  intros Hk. destruct (lookup_lt_is_Some_2 l k Hk) as [x Hx].
  exists x. unfold getitem. rewrite Hx. auto.
Qed.

(** ** White space

    Every white space character is stripped from both ends, whatever its
    length in bytes, and what lies between is kept as it is. *)
Lemma strip_white_space :
  Forall (fun c => strip (utf8_char c) = ""
                   /\ strip (utf8_char c +:+ "a b" +:+ utf8_char c) = "a b")
    white_space.
Proof. apply (bool_decide_unpack _). vm_compute. exact I. Qed.

(** Characters that share bytes with a white space character stay: the
    letter U+00E0, whose last byte is the last byte of U+00A0, the zero
    width space U+200B and the hyphen U+2010. *)
Lemma strip_keeps_other_characters :
  Forall (fun c => strip (utf8_char c) = utf8_char c) [224; 8203; 8208]%N.
Proof. apply (bool_decide_unpack _). vm_compute. exact I. Qed.

(** ** The trainer *)

Section TrainerFacts.

Variable math_exp : float -> option float.
Variable math_log1p : float -> option float.
Variable py_sum : list float -> float.

Import TrainRanker.

Local Abbreviation loss_sig := (TrainRanker.loss_sig math_exp math_log1p).
Local Abbreviation logistic_safe := (TrainRanker.logistic_safe math_exp math_log1p).
Local Abbreviation pair_step := (TrainRanker.pair_step math_exp math_log1p py_sum).
Local Abbreviation run_pairs := (TrainRanker.run_pairs math_exp math_log1p py_sum).
Local Abbreviation epoch := (TrainRanker.epoch math_exp math_log1p py_sum).
Local Abbreviation run_epochs := (TrainRanker.run_epochs math_exp math_log1p py_sum).
Local Abbreviation train := (TrainRanker.train math_exp math_log1p py_sum).
Local Abbreviation dot := (TrainRanker.dot py_sum).

Lemma update_w_range lr l2 gscale dx : forall (c a : nat) (w : list float),
  (a + c <= length w)%nat -> (a + c <= length dx)%nat ->
  exists w', update_w lr l2 gscale dx (seq a c) w = Ok w'
    /\ length w' = length w
    /\ forall k : nat,
         w' !! k =
           if bool_decide (a <= k < a + c)%nat
           then wk ← w !! k; dxk ← dx !! k; Some (stepped lr l2 gscale wk dxk)
           else w !! k.
Proof.
  induction c as [|c IH]; intros a w Hw Hdx.
  - exists w. split; [reflexivity|]. split; [reflexivity|].
    intros k. rewrite bool_decide_eq_false_2 by lia. reflexivity.
  - simpl.
    destruct (getitem_Ok w a) as (wk & Hwk & ->); [lia|].
    destruct (getitem_Ok dx a) as (dxk & Hdxk & ->); [lia|].
    simpl.
    destruct (IH (S a) (<[a := stepped lr l2 gscale wk dxk]> w)) as (w' & Hup & Hlen & Hval).
    { rewrite length_insert. lia. }
    { lia. }
    exists w'. split; [exact Hup|]. split.
    { rewrite Hlen, length_insert. reflexivity. }
    intros k. rewrite Hval.
    destruct (decide (k = a)) as [->|Hne].
    + rewrite bool_decide_eq_false_2 by lia.
      rewrite bool_decide_eq_true_2 by lia.
      rewrite list_lookup_insert_eq by lia.
      rewrite Hwk, Hdxk. reflexivity.
    + rewrite list_lookup_insert_ne by congruence.
      destruct (decide (S a <= k < S a + c)%nat).
      * rewrite !bool_decide_eq_true_2 by lia. reflexivity.
      * rewrite !bool_decide_eq_false_2 by lia. reflexivity.
Qed.

Lemma update_w_Ok lr l2 gscale dx (d : nat) (w : list float) :
  length w = d -> (d <= length dx)%nat ->
  exists w', update_w lr l2 gscale dx (seq 0 d) w = Ok w'
    /\ length w' = d
    /\ forall (k : nat) wk dxk, w !! k = Some wk -> dx !! k = Some dxk ->
         w' !! k = Some (stepped lr l2 gscale wk dxk).
Proof.
  intros Hw Hdx.
  destruct (update_w_range lr l2 gscale dx d 0 w) as (w' & Hup & Hlen & Hval); [lia..|].
  exists w'. split; [exact Hup|]. split; [lia|].
  intros k wk dxk Hwk Hdxk. rewrite Hval.
  apply lookup_lt_Some in Hwk as Hk.
  rewrite bool_decide_eq_true_2 by lia.
  rewrite Hwk, Hdxk. reflexivity.
Qed.

Lemma pair_step_skip id2x dim lr l2 st p :
  ~ usable id2x p -> pair_step id2x dim lr l2 st p = Ok st.
Proof.
  destruct p as [[i j] y01]. unfold usable, TrainRanker.pair_step. simpl.
  intros Hnot.
  destruct (id2x !! i) as [xi|]; [|reflexivity].
  destruct (id2x !! j) as [xj|]; [|reflexivity].
  exfalso. apply Hnot. split; eauto.
Qed.

(** The pair loop on a usable pair whose loss terms were computed and whose
    difference vector covers [range(dim)]. *)
Lemma pair_step_usable id2x dim lr l2 st i j y01 xi xj ell sig :
  id2x !! i = Some xi -> id2x !! j = Some xj ->
  let y := if y01 =? 1 then F64.one else F64.mone in
  let dx := zip_with F64.sub xi xj in
  loss_sig (y * (dot (cur_w st) dx + cur_b st))%f64 = Ok (ell, sig) ->
  length (cur_w st) = Z.to_nat dim -> (Z.to_nat dim <= length dx)%nat ->
  exists w',
    pair_step id2x dim lr l2 st (i, j, y01) =
      Ok {| cur_w := w';
            cur_b := (cur_b st - lr * (- y * sig))%f64;
            cur_loss := (cur_loss st + ell)%f64;
            cur_n := cur_n st + 1 |}
    /\ length w' = Z.to_nat dim
    /\ forall (k : nat) wk dxk, cur_w st !! k = Some wk -> dx !! k = Some dxk ->
         w' !! k = Some (wk - lr * ((- y * sig) * dxk + l2 * wk))%f64.
Proof.
  intros Hi Hj y dx Hloss Hw Hdx.
  destruct (update_w_Ok lr l2 (- y * sig)%f64 dx (Z.to_nat dim) (cur_w st) Hw Hdx)
    as (w' & Hup & Hlen & Hval).
  exists w'. split; [|split; [exact Hlen | exact Hval]].
  unfold TrainRanker.pair_step. rewrite Hi, Hj.
  fold y. fold dx. rewrite Hloss. simpl.
  unfold range. rewrite Hup. reflexivity.
Qed.

(** C5: a pair with an identifier that is not in the feature map is skipped
    without failing: the pass state (weights, bias, accumulated loss and
    used-pair count) is returned unchanged, and the loop goes on with the
    next pair from that same state. *)
Theorem unknown_identifier_skips_pair id2x dim lr l2 st i j y01 rest :
  id2x !! i = None \/ id2x !! j = None ->
  pair_step id2x dim lr l2 st (i, j, y01) = Ok st
  /\ run_pairs id2x dim lr l2 st ((i, j, y01) :: rest) = run_pairs id2x dim lr l2 st rest.
Proof.
  intros Habs.
  assert (Hskip : pair_step id2x dim lr l2 st (i, j, y01) = Ok st).
  { apply pair_step_skip. unfold usable. simpl.
    intros [[xi Hi] [xj Hj]]. destruct Habs; congruence. }
  split; [exact Hskip|].
  cbn [TrainRanker.run_pairs]. rewrite Hskip. reflexivity.
Qed.

(** C2: on a usable pair, with bipolar target [y], difference vector [dx]
    and gradient-sigmoid term [sig], every weight coordinate [k] becomes
    [w[k] - lr * ((-y * sig) * dx[k] + l2 * w[k])], the bias becomes
    [b - lr * (-y * sig)] with no [l2] term, the loss and the count are
    accumulated, and the next pair is processed from the updated state. *)
Theorem per_pair_update id2x dim lr l2 st i j y01 xi xj ell sig rest :
  id2x !! i = Some xi -> id2x !! j = Some xj ->
  let y := if y01 =? 1 then F64.one else F64.mone in
  let dx := zip_with F64.sub xi xj in
  loss_sig (y * (dot (cur_w st) dx + cur_b st))%f64 = Ok (ell, sig) ->
  length (cur_w st) = Z.to_nat dim -> (Z.to_nat dim <= length dx)%nat ->
  exists st',
    pair_step id2x dim lr l2 st (i, j, y01) = Ok st'
    /\ length (cur_w st') = Z.to_nat dim
    /\ (forall (k : nat) wk dxk, cur_w st !! k = Some wk -> dx !! k = Some dxk ->
          cur_w st' !! k = Some (wk - lr * ((- y * sig) * dxk + l2 * wk))%f64)
    /\ cur_b st' = (cur_b st - lr * (- y * sig))%f64
    /\ cur_loss st' = (cur_loss st + ell)%f64
    /\ cur_n st' = cur_n st + 1
    /\ run_pairs id2x dim lr l2 st ((i, j, y01) :: rest) = run_pairs id2x dim lr l2 st' rest.
Proof.
  intros Hi Hj y dx Hloss Hw Hdx.
  destruct (pair_step_usable id2x dim lr l2 st i j y01 xi xj ell sig Hi Hj Hloss Hw Hdx)
    as (w' & Hstep & Hlen & Hval).
  eexists. split; [exact Hstep|]. cbn [cur_w cur_b cur_loss cur_n].
  repeat split; try assumption.
  cbn [TrainRanker.run_pairs]. rewrite Hstep. reflexivity.
Qed.

(** The two terms of a margin [z], branch by branch.  At an extreme margin
    neither libm function is called, so whatever they would do there the
    two terms are returned; neither is a NaN, the sigmoid term is finite,
    and the loss is finite whenever the margin is. *)
Lemma loss_sig_branches (z : float) :
  ((F64.f35 <? z)%f64 = true -> loss_sig z = Ok (F64.zero, F64.zero))
  /\ ((F64.f35 <? z)%f64 = false -> (z <? F64.fm35)%f64 = true ->
        loss_sig z = Ok ((- z)%f64, F64.one))
  /\ ((F64.f35 <? z)%f64 = false -> (z <? F64.fm35)%f64 = false ->
        forall ell sig,
          loss_sig z = Ok (ell, sig) <->
          exists e1 e2,
            math_exp (- z)%f64 = Some e1 /\ math_log1p e1 = Some ell
            /\ math_exp z = Some e2
            /\ F64.is_zero (F64.one + e2)%f64 = false
            /\ sig = F64.div_ieee F64.one (F64.one + e2)%f64)
  /\ ((F64.f35 <? z)%f64 = true \/ (z <? F64.fm35)%f64 = true ->
        exists ell sig,
          loss_sig z = Ok (ell, sig)
          /\ F64.is_nan ell = false /\ F64.is_finite sig = true
          /\ (F64.is_finite z = true -> F64.is_finite ell = true)).
Proof.
  unfold TrainRanker.loss_sig.
  split; [intros ->; reflexivity|].
  split; [intros -> ->; reflexivity|].
  split.
  - intros -> ->. intros ell sig. unfold TrainRanker.logistic_safe, truediv. split.
    + intros H.
      apply bind_Ok_inv in H as (e1 & He1 & H). apply or_raise_Ok_inv in He1.
      apply bind_Ok_inv in H as (ell' & Hell & H). apply or_raise_Ok_inv in Hell.
      apply bind_Ok_inv in H as (e2 & He2 & H). apply or_raise_Ok_inv in He2.
      apply bind_Ok_inv in H as (sig' & Hsig & H).
      destruct (F64.is_zero (F64.one + e2)%f64) eqn:Hz; [discriminate|].
      exists e1, e2. repeat split; try assumption; congruence.
    + intros (e1 & e2 & He1 & Hell & He2 & Hz & ->).
      rewrite He1. cbn [or_raise mbind result_bind].
      rewrite Hell. cbn [or_raise mbind result_bind].
      rewrite He2. cbn [or_raise mbind result_bind].
      rewrite Hz. reflexivity.
  - intros Hextreme.
    destruct (F64.f35 <? z)%f64 eqn:Hhi.
    { exists F64.zero, F64.zero. repeat split; reflexivity. }
    destruct Hextreme as [Hhi' | Hlo]; [discriminate|]. rewrite Hlo.
    exists (- z)%f64, F64.one. split; [reflexivity|].
    destruct z; try discriminate; repeat split; auto.
Qed.

(** C3, as amended: on a pair of known identifiers, with bipolar target
    [y], difference vector [dx] and signed margin
    [z = y * (sum(w[k] * dx[k]) + b)] taken on the current weights and bias,
    the pair's step is the update with a loss contribution and a
    gradient-sigmoid term that come from a three-way branch on [z]: 0 and 0
    when [z > 35]; [-z] and 1 when [z < -35]; otherwise [log1p(exp(-z))],
    which is [log(1 + exp(-z))], and [1 / (1 + exp(z))], and then the step
    returns only if libm returned them.  At an extreme margin the step makes
    no libm call, the loss contribution is not a NaN, the sigmoid term is
    finite, and the loss contribution is finite whenever the margin is; at
    the margin [-inf] the loss contribution [-z] is [+inf]. *)
Theorem pair_margin_three_way id2x dim lr l2 st i j y01 xi xj :
  id2x !! i = Some xi -> id2x !! j = Some xj ->
  let y := if y01 =? 1 then F64.one else F64.mone in
  let dx := zip_with F64.sub xi xj in
  let z := (y * (py_sum (zip_with F64.mul (cur_w st) dx) + cur_b st))%f64 in
  let step_with (ell sig : float) : result pass :=
    w' ← update_w lr l2 (- y * sig)%f64 dx (range dim) (cur_w st);
    Ok {| cur_w := w';
          cur_b := (cur_b st - lr * (- y * sig))%f64;
          cur_loss := (cur_loss st + ell)%f64;
          cur_n := cur_n st + 1 |} in
  ((F64.f35 <? z)%f64 = true ->
     pair_step id2x dim lr l2 st (i, j, y01) = step_with F64.zero F64.zero)
  /\ ((F64.f35 <? z)%f64 = false -> (z <? F64.fm35)%f64 = true ->
        pair_step id2x dim lr l2 st (i, j, y01) = step_with (- z)%f64 F64.one)
  /\ ((F64.f35 <? z)%f64 = false -> (z <? F64.fm35)%f64 = false ->
        (forall e1 ell e2,
           math_exp (- z)%f64 = Some e1 -> math_log1p e1 = Some ell ->
           math_exp z = Some e2 -> F64.is_zero (F64.one + e2)%f64 = false ->
           pair_step id2x dim lr l2 st (i, j, y01)
           = step_with ell (F64.div_ieee F64.one (F64.one + e2)%f64))
        /\ (is_Ok (pair_step id2x dim lr l2 st (i, j, y01)) ->
              exists e1 ell e2,
                math_exp (- z)%f64 = Some e1 /\ math_log1p e1 = Some ell
                /\ math_exp z = Some e2
                /\ F64.is_zero (F64.one + e2)%f64 = false))
  /\ ((F64.f35 <? z)%f64 = true \/ (z <? F64.fm35)%f64 = true ->
        exists ell sig,
          loss_sig z = Ok (ell, sig)
          /\ pair_step id2x dim lr l2 st (i, j, y01) = step_with ell sig
          /\ F64.is_nan ell = false /\ F64.is_finite sig = true
          /\ (F64.is_finite z = true -> F64.is_finite ell = true)
          /\ (z = S754_infinity true -> ell = S754_infinity false)).
Proof.
  intros Hi Hj y dx z step_with.
  assert (Hstep : pair_step id2x dim lr l2 st (i, j, y01)
                  = ('(ell, sig) ← loss_sig z; step_with ell sig)).
  { unfold TrainRanker.pair_step. rewrite Hi, Hj. reflexivity. }
  destruct (loss_sig_branches z) as (Hhigh & Hlow & Hmid & Hextreme).
  split; [|split; [|split]].
  - intros Hhi. rewrite Hstep, (Hhigh Hhi). reflexivity.
  - intros Hhi Hlo. rewrite Hstep, (Hlow Hhi Hlo). reflexivity.
  - intros Hhi Hlo. split.
    + intros e1 ell e2 He1 Hell He2 Hz. rewrite Hstep.
      rewrite (proj2 (Hmid Hhi Hlo ell (F64.div_ieee F64.one (F64.one + e2)%f64))).
      * reflexivity.
      * exists e1, e2. repeat split; assumption.
    + intros [st' Hst']. rewrite Hstep in Hst'.
      apply bind_Ok_inv in Hst' as ([ell sig] & Hls & _).
      apply (Hmid Hhi Hlo) in Hls as (e1 & e2 & He1 & Hell & He2 & Hz & _).
      exists e1, ell, e2. repeat split; assumption.
  - intros Hext. destruct (Hextreme Hext) as (ell & sig & Hls & Hnan & Hsig & Hfin).
    exists ell, sig. split; [exact Hls|].
    split; [rewrite Hstep, Hls; reflexivity|].
    split; [exact Hnan|]. split; [exact Hsig|]. split; [exact Hfin|].
    intros Hz. rewrite Hz in Hls. vm_compute in Hls. congruence.
Qed.

(** *** Which exceptions the pair loop can raise *)

Lemma getitem_Raise_inv {A} (l : list A) (k : nat) (e : exn) :
  getitem l k = Raise e -> e = IndexError.
Proof. unfold getitem. destruct (l !! k); congruence. Qed.

Lemma update_w_Raise_inv lr l2 gscale dx : forall ks w e,
  update_w lr l2 gscale dx ks w = Raise e -> e = IndexError.
Proof.
  induction ks as [|k ks IH]; intros w e; cbn [update_w]; [discriminate|].
  intros H.
  apply bind_Raise_inv in H as [H | (wk & _ & H)];
    [exact (getitem_Raise_inv _ _ _ H)|].
  apply bind_Raise_inv in H as [H | (dxk & _ & H)];
    [exact (getitem_Raise_inv _ _ _ H)|].
  exact (IH _ _ H).
Qed.

Lemma logistic_safe_Raise_inv z e :
  logistic_safe z = Raise e -> is_Exception e = true.
Proof.
  unfold TrainRanker.logistic_safe. intros H.
  apply bind_Raise_inv in H as [H | (e1 & _ & H)];
    [apply or_raise_Raise_inv in H as ->; reflexivity|].
  apply bind_Raise_inv in H as [H | (ell & _ & H)];
    [apply or_raise_Raise_inv in H as ->; reflexivity|].
  apply bind_Raise_inv in H as [H | (e2 & _ & H)];
    [apply or_raise_Raise_inv in H as ->; reflexivity|].
  apply bind_Raise_inv in H as [H | (sig & _ & H)]; [|discriminate].
  unfold truediv in H. destruct (F64.is_zero _); [|discriminate].
  injection H as <-. reflexivity.
Qed.

Lemma loss_sig_Raise_inv z e :
  loss_sig z = Raise e -> is_Exception e = true.
Proof.
  unfold TrainRanker.loss_sig.
  destruct (F64.f35 <? z)%f64; [discriminate|].
  destruct (z <? F64.fm35)%f64; [discriminate|].
  apply logistic_safe_Raise_inv.
Qed.

Lemma pair_step_Raise_inv id2x dim lr l2 st p e :
  pair_step id2x dim lr l2 st p = Raise e -> is_Exception e = true.
Proof.
  destruct p as [[i j] y01]. unfold TrainRanker.pair_step.
  destruct (id2x !! i) as [xi|]; [|discriminate].
  destruct (id2x !! j) as [xj|]; [|discriminate].
  intros H.
  apply bind_Raise_inv in H as [H | ([ell sig] & _ & H)];
    [exact (loss_sig_Raise_inv _ _ H)|].
  apply bind_Raise_inv in H as [H | (w' & _ & H)]; [|discriminate].
  apply update_w_Raise_inv in H as ->. reflexivity.
Qed.

Lemma run_pairs_Raise_inv id2x dim lr l2 : forall pairs st e,
  run_pairs id2x dim lr l2 st pairs = Raise e -> is_Exception e = true.
Proof.
  induction pairs as [|p rest IH]; intros st e; cbn [TrainRanker.run_pairs];
    [discriminate|].
  intros H.
  apply bind_Raise_inv in H as [H | (st' & _ & H)].
  - exact (pair_step_Raise_inv _ _ _ _ _ _ _ H).
  - exact (IH _ _ H).
Qed.

(** *** Counting the usable pairs *)

Lemma pair_step_count id2x dim lr l2 st p st' :
  pair_step id2x dim lr l2 st p = Ok st' ->
  cur_n st' = cur_n st + (if decide (usable id2x p) then 1 else 0).
Proof.
  destruct (decide (usable id2x p)) as [Hu|Hu].
  - destruct p as [[i j] y01]. destruct Hu as [[xi Hi] [xj Hj]]. simpl in Hi, Hj.
    unfold TrainRanker.pair_step. rewrite Hi, Hj. intros H.
    apply bind_Ok_inv in H as ([ell sig] & _ & H).
    apply bind_Ok_inv in H as (w' & _ & H).
    injection H as <-. reflexivity.
  - rewrite pair_step_skip by exact Hu. intros [= <-]. lia.
Qed.

Lemma run_pairs_count id2x dim lr l2 : forall pairs st st',
  run_pairs id2x dim lr l2 st pairs = Ok st' ->
  cur_n st' = cur_n st + Z.of_nat (length (filter (usable id2x) pairs)).
Proof.
  induction pairs as [|p rest IH]; intros st st'; cbn [TrainRanker.run_pairs].
  - intros [= <-]. simpl. lia.
  - intros H. apply bind_Ok_inv in H as (st1 & Hstep & H).
    apply IH in H. apply pair_step_count in Hstep.
    rewrite H, Hstep, filter_cons.
    destruct (decide (usable id2x p)); simpl; lia.
Qed.

Lemma run_pairs_all_skipped id2x dim lr l2 : forall pairs st,
  Forall (fun p => ~ usable id2x p) pairs ->
  run_pairs id2x dim lr l2 st pairs = Ok st.
Proof.
  induction pairs as [|p rest IH]; intros st Hall; [reflexivity|].
  apply Forall_cons in Hall as [Hp Hrest].
  cbn [TrainRanker.run_pairs]. rewrite pair_step_skip by exact Hp.
  exact (IH st Hrest).
Qed.

Lemma filter_usable_nil id2x (pairs : list (string * string * Z)) :
  filter (usable id2x) pairs = [] <-> Forall (fun p => ~ usable id2x p) pairs.
Proof.
  induction pairs as [|p rest IH]; [split; [constructor | reflexivity]|].
  rewrite filter_cons, Forall_cons.
  destruct (decide (usable id2x p)); [split; [discriminate | tauto]|].
  rewrite IH. tauto.
Qed.

(** An epoch raises [SystemExit] exactly when no pair is usable. *)
Lemma epoch_SystemExit id2x pairs dim lr l2 ep wb msg :
  epoch id2x pairs dim lr l2 ep wb = Raise (SystemExit msg) ->
  Forall (fun p => ~ usable id2x p) pairs.
Proof.
  unfold TrainRanker.epoch. intros H.
  apply bind_Raise_inv in H as [H | (st & Hrun & H)].
  - apply run_pairs_Raise_inv in H. discriminate.
  - apply run_pairs_count in Hrun. cbn [cur_n] in Hrun.
    destruct (Z.eqb_spec (cur_n st) 0) as [Hz|]; [|discriminate].
    apply filter_usable_nil. apply length_zero_iff_nil. lia.
Qed.

Lemma epoch_all_skipped id2x pairs dim lr l2 ep wb :
  Forall (fun p => ~ usable id2x p) pairs ->
  epoch id2x pairs dim lr l2 ep wb = Raise (SystemExit no_usable_pairs).
Proof.
  intros Hall. unfold TrainRanker.epoch.
  rewrite run_pairs_all_skipped by exact Hall. reflexivity.
Qed.

Lemma run_epochs_SystemExit id2x pairs dim lr l2 : forall eps wb log log' msg,
  run_epochs id2x pairs dim lr l2 eps wb log = (log', Raise (SystemExit msg)) ->
  eps <> [] /\ Forall (fun p => ~ usable id2x p) pairs.
Proof.
  induction eps as [|ep eps IH]; intros wb log log' msg; cbn [TrainRanker.run_epochs].
  - discriminate.
  - destruct (epoch id2x pairs dim lr l2 ep wb) as [[wb' r]|e] eqn:Hep.
    + intros H. apply IH in H as [_ H]. split; [discriminate | exact H].
    + intros [= _ ->]. split; [discriminate|].
      exact (epoch_SystemExit _ _ _ _ _ _ _ _ Hep).
Qed.

(** *** Inside the contract nothing else raises *)

Lemma loss_sig_Ok z :
  libm_guarded math_exp math_log1p -> is_Ok (loss_sig z).
Proof.
  intros Hlibm. unfold TrainRanker.loss_sig.
  destruct (F64.f35 <? z)%f64 eqn:Hhi; [eexists; reflexivity|].
  destruct (z <? F64.fm35)%f64 eqn:Hlo; [eexists; reflexivity|].
  destruct (Hlibm z Hhi Hlo) as (e1 & ell & e2 & He1 & Hell & He2 & Hz).
  unfold TrainRanker.logistic_safe, truediv.
  rewrite He1. cbn [or_raise mbind result_bind].
  rewrite Hell. cbn [or_raise mbind result_bind].
  rewrite He2. cbn [or_raise mbind result_bind].
  rewrite Hz. eexists. reflexivity.
Qed.

Lemma pair_step_Ok id2x dim lr l2 st p :
  vectors_cover id2x dim -> libm_guarded math_exp math_log1p ->
  length (cur_w st) = Z.to_nat dim ->
  exists st', pair_step id2x dim lr l2 st p = Ok st'
    /\ length (cur_w st') = Z.to_nat dim.
Proof.
  intros Hcover Hlibm Hw.
  destruct (decide (usable id2x p)) as [Hu|Hu].
  - destruct p as [[i j] y01]. destruct Hu as [[xi Hi] [xj Hj]]. simpl in Hi, Hj.
    set (y := if y01 =? 1 then F64.one else F64.mone).
    set (dx := zip_with F64.sub xi xj).
    destruct (loss_sig_Ok (y * (dot (cur_w st) dx + cur_b st))%f64 Hlibm)
      as [[ell sig] Hloss].
    destruct (pair_step_usable id2x dim lr l2 st i j y01 xi xj ell sig Hi Hj Hloss Hw)
      as (w' & Hstep & Hlen & _).
    { unfold dx. rewrite length_zip_with.
      apply Hcover in Hi. apply Hcover in Hj. lia. }
    eexists. split; [exact Hstep | exact Hlen].
  - exists st. split; [apply pair_step_skip; exact Hu | exact Hw].
Qed.

Lemma run_pairs_Ok id2x dim lr l2 : forall pairs st,
  vectors_cover id2x dim -> libm_guarded math_exp math_log1p ->
  length (cur_w st) = Z.to_nat dim ->
  exists st', run_pairs id2x dim lr l2 st pairs = Ok st'
    /\ length (cur_w st') = Z.to_nat dim.
Proof.
  induction pairs as [|p rest IH]; intros st Hcover Hlibm Hw.
  - exists st. split; [reflexivity | exact Hw].
  - destruct (pair_step_Ok id2x dim lr l2 st p Hcover Hlibm Hw) as (st1 & Hstep & Hw1).
    destruct (IH st1 Hcover Hlibm Hw1) as (st' & Hrun & Hw').
    exists st'. split; [|exact Hw'].
    cbn [TrainRanker.run_pairs]. rewrite Hstep. exact Hrun.
Qed.

Lemma epoch_in_contract id2x pairs dim lr l2 ep wb :
  vectors_cover id2x dim -> libm_guarded math_exp math_log1p ->
  length wb.1 = Z.to_nat dim ->
  epoch id2x pairs dim lr l2 ep wb = Raise (SystemExit no_usable_pairs)
  \/ exists wb' r, epoch id2x pairs dim lr l2 ep wb = Ok (wb', r)
       /\ length wb'.1 = Z.to_nat dim.
Proof.
  intros Hcover Hlibm Hw. unfold TrainRanker.epoch.
  destruct (run_pairs_Ok id2x dim lr l2 pairs
              {| cur_w := wb.1; cur_b := wb.2; cur_loss := F64.zero; cur_n := 0 |}
              Hcover Hlibm Hw) as (st & -> & Hlen).
  cbn [mbind result_bind].
  destruct (cur_n st =? 0); [left; reflexivity|].
  right. eexists _, _. split; [reflexivity | exact Hlen].
Qed.

Lemma run_epochs_in_contract id2x pairs dim lr l2 : forall eps wb log log' e,
  vectors_cover id2x dim -> libm_guarded math_exp math_log1p ->
  length wb.1 = Z.to_nat dim ->
  run_epochs id2x pairs dim lr l2 eps wb log = (log', Raise e) ->
  e = SystemExit no_usable_pairs.
Proof.
  induction eps as [|ep eps IH]; intros wb log log' e Hcover Hlibm Hw;
    cbn [TrainRanker.run_epochs]; [discriminate|].
  destruct (epoch_in_contract id2x pairs dim lr l2 ep wb Hcover Hlibm Hw)
    as [-> | (wb' & r & -> & Hw')].
  - intros [= _ <-]. reflexivity.
  - exact (IH wb' _ log' e Hcover Hlibm Hw').
Qed.

(** C4: with at least one epoch to run, if every pair names an identifier
    that is not in the feature map, [train] raises [SystemExit] in its first
    epoch: no report is printed and the pass ends on the weights and bias it
    started from.  [SystemExit] is raised in no other situation; and inside
    the contract (vectors of at least [dim] entries, libm returning on
    guarded margins) it is the only exception [train] can raise. *)
Theorem zero_usable_pairs_is_fatal id2x pairs dim lr epochs l2 :
  (0 < epochs ->
   Forall (fun p => id2x !! p.1.1 = None \/ id2x !! p.1.2 = None) pairs ->
   train id2x pairs dim lr epochs l2 = ([], Raise (SystemExit no_usable_pairs))
   /\ run_pairs id2x dim lr l2 (first_pass dim) pairs = Ok (first_pass dim))
  /\ (forall log msg,
        train id2x pairs dim lr epochs l2 = (log, Raise (SystemExit msg)) ->
        0 < epochs
        /\ Forall (fun p => id2x !! p.1.1 = None \/ id2x !! p.1.2 = None) pairs)
  /\ (vectors_cover id2x dim -> libm_guarded math_exp math_log1p ->
      forall log e,
        train id2x pairs dim lr epochs l2 = (log, Raise e) ->
        e = SystemExit no_usable_pairs).
Proof.
  assert (Habs : Forall (fun p => id2x !! p.1.1 = None \/ id2x !! p.1.2 = None) pairs
                 <-> Forall (fun p => ~ usable id2x p) pairs).
  { apply Forall_iff. intros p. unfold usable.
    destruct (id2x !! p.1.1) as [xi|], (id2x !! p.1.2) as [xj|]; split; intros H;
      try (right; reflexivity); try (left; reflexivity);
      try (intros [[? ?] [? ?]]; discriminate).
    - destruct H; discriminate.
    - exfalso. apply H. split; eauto. }
  split; [|split].
  - intros Hep Hall. apply Habs in Hall. split.
    + unfold TrainRanker.train.
      destruct (Z.to_nat epochs) as [|k] eqn:Hk; [lia|].
      cbn [seq map TrainRanker.run_epochs].
      rewrite epoch_all_skipped by exact Hall. reflexivity.
    + apply run_pairs_all_skipped. exact Hall.
  - intros log msg H. unfold TrainRanker.train in H.
    apply run_epochs_SystemExit in H as [Hne Hall].
    split; [|apply Habs; exact Hall].
    destruct (Z.to_nat epochs) eqn:Hk; [exfalso; apply Hne; reflexivity | lia].
  - intros Hcover Hlibm log e H. unfold TrainRanker.train in H.
    eapply run_epochs_in_contract; [exact Hcover | exact Hlibm | | exact H].
    cbn [fst]. apply length_replicate.
Qed.

(** X6: with [epochs <= 0] there is no epoch to run: the loop body never
    executes, so no pair is looked at and the zero model is returned. *)
Lemma train_without_epochs id2x pairs dim lr epochs l2 :
  epochs <= 0 ->
  train id2x pairs dim lr epochs l2
  = ([], Ok (replicate (Z.to_nat dim) F64.zero, F64.zero)).
Proof.
  intros Hep. unfold TrainRanker.train.
  replace (Z.to_nat epochs) with 0%nat by lia. reflexivity.
Qed.

(** *** Which entries of the feature map a run reads *)

Lemma pair_step_lookups id2x1 id2x2 dim lr l2 st p :
  id2x1 !! p.1.1 = id2x2 !! p.1.1 -> id2x1 !! p.1.2 = id2x2 !! p.1.2 ->
  pair_step id2x1 dim lr l2 st p = pair_step id2x2 dim lr l2 st p.
Proof.
  destruct p as [[i j] y01]. simpl. intros Hi Hj.
  unfold TrainRanker.pair_step. rewrite Hi, Hj. reflexivity.
Qed.

Lemma run_pairs_lookups id2x1 id2x2 dim lr l2 : forall pairs st,
  Forall (fun p => id2x1 !! p.1.1 = id2x2 !! p.1.1
                   /\ id2x1 !! p.1.2 = id2x2 !! p.1.2) pairs ->
  run_pairs id2x1 dim lr l2 st pairs = run_pairs id2x2 dim lr l2 st pairs.
Proof.
  induction pairs as [|p rest IH]; intros st Hall; [reflexivity|].
  apply Forall_cons in Hall as [[Hi Hj] Hrest].
  cbn [TrainRanker.run_pairs].
  rewrite (pair_step_lookups id2x1 id2x2 dim lr l2 st p Hi Hj).
  destruct (pair_step id2x2 dim lr l2 st p) as [st'|e]; [|reflexivity].
  exact (IH st' Hrest).
Qed.

Lemma run_epochs_lookups id2x1 id2x2 pairs dim lr l2 :
  Forall (fun p => id2x1 !! p.1.1 = id2x2 !! p.1.1
                   /\ id2x1 !! p.1.2 = id2x2 !! p.1.2) pairs ->
  forall eps wb log,
    run_epochs id2x1 pairs dim lr l2 eps wb log
    = run_epochs id2x2 pairs dim lr l2 eps wb log.
Proof.
  intros Hall. induction eps as [|ep eps IH]; intros wb log; [reflexivity|].
  cbn [TrainRanker.run_epochs]. unfold TrainRanker.epoch.
  rewrite (run_pairs_lookups id2x1 id2x2 dim lr l2 pairs _ Hall).
  destruct (run_pairs id2x2 dim lr l2 _ pairs) as [st|e]; [|reflexivity].
  cbn [mbind result_bind].
  destruct (cur_n st =? 0); [reflexivity|]. apply IH.
Qed.

(** X20: [train] reads the feature map at the identifiers its pairs name and
    nowhere else.  Two feature maps that agree on those identifiers give the
    same reports and the same result, whatever other applicants either of
    them holds. *)
Theorem train_reads_named_identifiers_only id2x1 id2x2 pairs dim lr epochs l2 :
  Forall (fun p => id2x1 !! p.1.1 = id2x2 !! p.1.1
                   /\ id2x1 !! p.1.2 = id2x2 !! p.1.2) pairs ->
  train id2x1 pairs dim lr epochs l2 = train id2x2 pairs dim lr epochs l2.
Proof.
  intros Hall. unfold TrainRanker.train. apply run_epochs_lookups. exact Hall.
Qed.

(** *** The scenario *)

Lemma scenario_pair_step ell :
  math_exp F64.zero = Some F64.one -> math_exp F64.nzero = Some F64.one ->
  math_log1p F64.one = Some ell ->
  py_sum [F64.zero; F64.nzero] = F64.zero ->
  pair_step scenario_map 2 (F64.dec 1 1) F64.zero (first_pass 2) ("a", "b", 1)
  = Ok {| cur_w := [F64.dec 5 2; (- F64.dec 5 2)%f64]; cur_b := F64.dec 5 2;
          cur_loss := (F64.zero + ell)%f64; cur_n := 1 |}.
Proof.
  intros H0 Hn Hl Hs.
  change (first_pass 2) with
    {| cur_w := [F64.zero; F64.zero]; cur_b := F64.zero;
       cur_loss := F64.zero; cur_n := 0 |}.
  unfold TrainRanker.pair_step.
  replace (scenario_map !! "a") with (Some [F64.one; F64.zero])
    by (vm_compute; reflexivity).
  replace (scenario_map !! "b") with (Some [F64.zero; F64.one])
    by (vm_compute; reflexivity).
  cbn [Z.eqb Pos.eqb cur_w cur_b cur_loss cur_n]. unfold TrainRanker.dot.
  replace (zip_with F64.sub [F64.one; F64.zero] [F64.zero; F64.one])
    with [F64.one; F64.mone] by (vm_compute; reflexivity).
  replace (zip_with F64.mul [F64.zero; F64.zero] [F64.one; F64.mone])
    with [F64.zero; F64.nzero] by (vm_compute; reflexivity).
  rewrite Hs.
  replace (F64.one * (F64.zero + F64.zero))%f64 with F64.zero
    by (vm_compute; reflexivity).
  unfold TrainRanker.loss_sig.
  replace (F64.f35 <? F64.zero)%f64 with false by (vm_compute; reflexivity).
  replace (F64.zero <? F64.fm35)%f64 with false by (vm_compute; reflexivity).
  unfold TrainRanker.logistic_safe.
  replace (- F64.zero)%f64 with F64.nzero by reflexivity.
  rewrite Hn. cbn [or_raise mbind result_bind].
  rewrite Hl. cbn [or_raise mbind result_bind].
  rewrite H0. cbn [or_raise mbind result_bind].
  replace (truediv F64.one (F64.one + F64.one)%f64) with (Ok F64.half)
    by (vm_compute; reflexivity).
  cbn [mbind result_bind].
  replace (update_w _ _ _ _ _ _) with (Ok [F64.dec 5 2; (- F64.dec 5 2)%f64])
    by (vm_compute; reflexivity).
  cbn [mbind result_bind].
  replace (F64.zero - F64.dec 1 1 * (- F64.one * F64.half))%f64 with (F64.dec 5 2)
    by (vm_compute; reflexivity).
  reflexivity.
Qed.

(** C1: the scenario of the specification.  With [dim = 2], the feature map
    [{"a": [1, 0], "b": [0, 1]}], the one pair [("a", "b", 1)], [lr = 0.1],
    [epochs = 1] and [l2 = 0], [train] returns exactly [w = [0.05, -0.05]]
    and [b = 0.05], the doubles those literals denote.  The runtime is any
    in which [exp(0.0) = exp(-0.0) = 1.0], [log1p(1.0)] returns, and [sum]
    adds left to right or by compensated summation. *)
Theorem scenario_one_epoch :
  math_exp F64.zero = Some F64.one -> math_exp F64.nzero = Some F64.one ->
  is_Some (math_log1p F64.one) ->
  (forall l, py_sum l = Runtime.sum_left l)
    \/ (forall l, py_sum l = Runtime.sum_neumaier l) ->
  (train scenario_map [("a", "b", 1)] 2 (F64.dec 1 1) 1 F64.zero).2
  = Ok ([F64.dec 5 2; (- F64.dec 5 2)%f64], F64.dec 5 2).
Proof.
  intros H0 Hn [ell Hl] Hsum.
  assert (Hs : py_sum [F64.zero; F64.nzero] = F64.zero).
  { destruct Hsum as [-> | ->]; vm_compute; reflexivity. }
  unfold TrainRanker.train.
  change (Z.to_nat 1) with 1%nat. cbn [seq map TrainRanker.run_epochs].
  unfold TrainRanker.epoch. cbn [fst snd TrainRanker.run_pairs].
  change {| cur_w := replicate (Z.to_nat 2) F64.zero; cur_b := F64.zero;
            cur_loss := F64.zero; cur_n := 0 |} with (first_pass 2).
  rewrite (scenario_pair_step ell H0 Hn Hl Hs).
  reflexivity.
Qed.

End TrainerFacts.

(** ** The loaders *)

Section LoaderFacts.

Variable json_loads : string -> result pyval.
Variable float_of_str : string -> option float.
Variable py_repr : pyval -> string.

Import TrainRanker.

Local Abbreviation applicant_entry := (TrainRanker.applicant_entry json_loads float_of_str py_repr).
Local Abbreviation applicant_step := (TrainRanker.applicant_step json_loads float_of_str py_repr).
Local Abbreviation load_applicants_loop :=
  (TrainRanker.load_applicants_loop json_loads float_of_str py_repr).
Local Abbreviation load_applicants_jsonl :=
  (TrainRanker.load_applicants_jsonl json_loads float_of_str py_repr).

(** What [applicant_entry] does with a line that decodes to a dict. *)
Lemma applicant_entry_dict line d :
  strip line <> "" -> json_loads (strip line) = Ok (PDict d) ->
  applicant_entry line =
    if decide (py_str py_repr (default PNone (d !! "id")) = "") then Ok None
    else
      match default PNone (d !! "features") with
      | PList l => fl ← mapM (py_float float_of_str) l; Ok (Some (py_str py_repr (default PNone (d !! "id")), fl))
      | _ => Ok None
      end.
Proof.
  intros Hne Hd. unfold TrainRanker.applicant_entry.
  rewrite decide_False by exact Hne. rewrite Hd. reflexivity.
Qed.

Lemma str_missing_id (d : gmap string pyval) :
  d !! "id" = None \/ d !! "id" = Some PNone ->
  py_str py_repr (default PNone (d !! "id")) = "None".
Proof. intros [-> | ->]; reflexivity. Qed.

(** C10: the applicants loader does not pass over a record for a missing
    id.  The id is stringified first, so a record without an ["id"] field,
    or with a null one, whose features are a list is stored under the
    identifier ["None"]; of two such records the later one is the one the
    map keeps.  A record is passed over exactly when its stringified id is
    the empty string or its features field is not a list. *)
Theorem missing_id_is_stored_as_None :
  (forall line d l,
     strip line <> "" -> json_loads (strip line) = Ok (PDict d) ->
     d !! "id" = None \/ d !! "id" = Some PNone ->
     d !! "features" = Some (PList l) ->
     applicant_entry line = (fl ← mapM (py_float float_of_str) l; Ok (Some ("None", fl)))
     /\ applicant_entry line <> Ok None)
  /\ (forall id2x line1 line2 d1 d2 l1 l2 fl1 fl2,
        strip line1 <> "" -> json_loads (strip line1) = Ok (PDict d1) ->
        strip line2 <> "" -> json_loads (strip line2) = Ok (PDict d2) ->
        d1 !! "id" = None \/ d1 !! "id" = Some PNone ->
        d2 !! "id" = None \/ d2 !! "id" = Some PNone ->
        d1 !! "features" = Some (PList l1) -> mapM (py_float float_of_str) l1 = Ok fl1 ->
        d2 !! "features" = Some (PList l2) -> mapM (py_float float_of_str) l2 = Ok fl2 ->
        applicant_step id2x line1 = Ok (<["None" := fl1]> id2x)
        /\ load_applicants_loop id2x [line1; line2] = Ok (<["None" := fl2]> id2x))
  /\ (forall line d,
        strip line <> "" -> json_loads (strip line) = Ok (PDict d) ->
        (applicant_entry line = Ok None <->
         py_str py_repr (default PNone (d !! "id")) = ""
         \/ forall l, default PNone (d !! "features") <> PList l)).
Proof.
  split; [|split].
  - intros line d l Hne Hd Hid Hx.
    assert (Hentry : applicant_entry line = (fl ← mapM (py_float float_of_str) l; Ok (Some ("None", fl)))).
    { rewrite (applicant_entry_dict line d Hne Hd), (str_missing_id d Hid), Hx.
      reflexivity. }
    split; [exact Hentry|]. rewrite Hentry.
    destruct (mapM (py_float float_of_str) l); discriminate.
  - intros id2x line1 line2 d1 d2 l1 l2 fl1 fl2 Hne1 Hd1 Hne2 Hd2 Hid1 Hid2 Hx1 Hfl1 Hx2 Hfl2.
    assert (Hstep : forall m line d l fl,
              strip line <> "" -> json_loads (strip line) = Ok (PDict d) ->
              d !! "id" = None \/ d !! "id" = Some PNone ->
              d !! "features" = Some (PList l) -> mapM (py_float float_of_str) l = Ok fl ->
              applicant_step m line = Ok (<["None" := fl]> m)).
    { intros m line d l fl Hne Hd Hid Hx Hfl. unfold TrainRanker.applicant_step.
      rewrite (applicant_entry_dict line d Hne Hd), (str_missing_id d Hid), Hx.
      cbn [default from_option id]. rewrite decide_False by discriminate. rewrite Hfl. reflexivity. }
    split; [exact (Hstep id2x line1 d1 l1 fl1 Hne1 Hd1 Hid1 Hx1 Hfl1)|].
    cbn [TrainRanker.load_applicants_loop].
    rewrite (Hstep id2x line1 d1 l1 fl1 Hne1 Hd1 Hid1 Hx1 Hfl1). cbn [mbind result_bind].
    rewrite (Hstep _ line2 d2 l2 fl2 Hne2 Hd2 Hid2 Hx2 Hfl2). cbn [mbind result_bind].
    rewrite insert_insert_eq. reflexivity.
  - intros line d Hne Hd. rewrite (applicant_entry_dict line d Hne Hd).
    destruct (decide (py_str py_repr (default PNone (d !! "id")) = "")) as [Hid|Hid].
    { split; [intros _; left; exact Hid | reflexivity]. }
    destruct (default PNone (d !! "features")) as [| | | | | |l| |] eqn:Hx;
      try (split; [intros _; right; intros l'; discriminate | reflexivity]).
    split.
    + destruct (mapM (py_float float_of_str) l); discriminate.
    + intros [Hempty | Hnolist]; [contradiction|]. exfalso. exact (Hnolist l eq_refl).
Qed.

End LoaderFacts.

Section PairsLoaderFacts.

Variable float_of_str : string -> option float.

Import TrainRanker.

Local Abbreviation label_int := (TrainRanker.label_int float_of_str).
Local Abbreviation pair_of_row := (TrainRanker.pair_of_row float_of_str).
Local Abbreviation load_pairs_loop := (TrainRanker.load_pairs_loop float_of_str).
Local Abbreviation load_pairs_csv := (TrainRanker.load_pairs_csv float_of_str).
Local Abbreviation kept_pair := (TrainRanker.kept_pair float_of_str).


Lemma int_of_float_Exception f e :
  int_of_float f = Raise e -> is_Exception e = true.
Proof. destruct f; simpl; intros [= <-]; reflexivity. Qed.

Lemma label_int_Exception r e :
  label_int r = Raise e -> is_Exception e = true.
Proof.
  unfold TrainRanker.label_int.
  destruct (default (Some "") (r !! "y")) as [s|]; [|intros [= <-]; reflexivity].
  destruct (float_of_str s) as [f|]; cbn [or_raise mbind result_bind].
  - apply int_of_float_Exception.
  - intros [= <-]. reflexivity.
Qed.

Lemma pair_of_row_kept r : pair_of_row r = Ok (kept_pair r).
Proof.
  unfold TrainRanker.pair_of_row, TrainRanker.kept_pair.
  destruct (decide (field_str r "i" = "" \/ field_str r "j" = "")); [reflexivity|].
  destruct (label_int r) as [y|e] eqn:Hy; cbn [except_Exception mbind result_bind].
  - destruct (decide (y = 0 \/ y = 1)); reflexivity.
  - rewrite (label_int_Exception r e Hy). reflexivity.
Qed.

Lemma load_pairs_loop_kept : forall rows pairs,
  load_pairs_loop pairs rows = Ok (pairs ++ omap kept_pair rows).
Proof.
  induction rows as [|r rest IH]; intros pairs; cbn [TrainRanker.load_pairs_loop omap].
  - rewrite app_nil_r. reflexivity.
  - rewrite pair_of_row_kept. cbn [mbind result_bind list_omap].
    destruct (kept_pair r) as [p|]; rewrite IH; [|reflexivity].
    rewrite <- app_assoc. reflexivity.
Qed.


End PairsLoaderFacts.

(** ** The model file *)

Section SaveModelFacts.

Variable py_round : float -> Z -> float.
Variable json_dumps : pyval -> string.

Local Abbreviation model_obj := (TrainRanker.model_obj py_round).
Local Abbreviation save_model := (TrainRanker.save_model py_round json_dumps).

(** C7: for every weight vector [w] and bias [b], the object [save_model]
    serializes has exactly the four fields [feature_version], [dim],
    [weights] and [bias]: [feature_version] is the given int, [dim] is an
    int equal to the length of the [weights] array, [weights] is the flat
    array of the entries of [w] each rounded to 12 decimal digits, and
    [bias] is [b] rounded to 12 decimal digits; its text is what the file
    at [path] holds afterwards. *)
Theorem saved_model_schema (fs : gmap string string) (path : string)
    (feature_version : Z) (w : list float) (b : float) :
  let obj := model_obj feature_version w b in
  obj !! "feature_version" = Some (PInt feature_version)
  /\ (exists ws, obj !! "weights" = Some (PList ws)
        /\ obj !! "dim" = Some (PInt (Z.of_nat (length ws)))
        /\ length ws = length w
        /\ forall k : nat, ws !! k = (fun v => PFloat (py_round v 12)) <$> w !! k)
  /\ obj !! "bias" = Some (PFloat (py_round b 12))
  /\ dom obj = ({["feature_version"; "dim"; "weights"; "bias"]} : gset string)
  /\ save_model fs path feature_version w b !! path = Some (json_dumps (PDict obj)).
Proof.
  intros obj. unfold obj, TrainRanker.model_obj, TrainRanker.save_model.
  split; [reflexivity|]. split.
  { eexists. split; [reflexivity|]. rewrite length_map.
    split; [reflexivity|]. split; [reflexivity|].
    intros k. apply list_lookup_fmap. }
  split; [reflexivity|]. split.
  { rewrite !dom_insert_L, dom_empty_L. set_solver. }
  apply lookup_insert_eq.
Qed.

End SaveModelFacts.

(** ** The feature-map adapter *)

Lemma py_float_Exception float_of_str v e :
  py_float float_of_str v = Raise e -> is_Exception e = true.
Proof.
  destruct v; simpl; try (intros [= <-]; reflexivity); try discriminate.
  - unfold float_of_int. destruct (F64.is_inf _); [intros [= <-]; reflexivity | discriminate].
  - destruct (float_of_str s); simpl; [discriminate | intros [= <-]; reflexivity].
  - destruct (float_of_str s); simpl; [discriminate | intros [= <-]; reflexivity].
Qed.

Lemma mapM_Exception {A B} (f : A -> result B) (l : list A) (e : exn) :
  (forall a e', f a = Raise e' -> is_Exception e' = true) ->
  mapM f l = Raise e -> is_Exception e = true.
Proof.
  intros Hf. induction l as [|a l IH]; cbn [mapM]; [discriminate|].
  intros H. apply bind_Raise_inv in H as [H | (b & _ & H)]; [exact (Hf _ _ H)|].
  apply bind_Raise_inv in H as [H | (k & _ & H)]; [exact (IH H) | discriminate].
Qed.

Lemma mapM_py_float_PFloat float_of_str (feats : list float) :
  mapM (py_float float_of_str) (map PFloat feats) = Ok feats.
Proof.
  induction feats as [|x feats IH]; [reflexivity|].
  cbn [map mapM py_float mbind result_bind]. rewrite IH. reflexivity.
Qed.

Section AdapterFacts.

Variable json_loads : string -> option pyval.
Variable literal_eval : string -> option pyval.
Variable float_of_str : string -> option float.

Import MakeApplicants.

Local Abbreviation parse_features := (MakeApplicants.parse_features json_loads literal_eval).
Local Abbreviation row_features :=
  (MakeApplicants.row_features json_loads literal_eval float_of_str).
Local Abbreviation accepted_features :=
  (MakeApplicants.accepted_features json_loads literal_eval float_of_str).
Local Abbreviation main_loop := (MakeApplicants.main_loop json_loads literal_eval float_of_str).
Local Abbreviation main := (MakeApplicants.main json_loads literal_eval float_of_str).

Lemma row_features_accepted r : row_features r = Ok (accepted_features r).
Proof.
  unfold MakeApplicants.row_features, MakeApplicants.accepted_features.
  destruct (parse_features _) as [[|v feats]|]; [reflexivity| |reflexivity].
  destruct (mapM (py_float float_of_str) (v :: feats)) as [fl|e] eqn:Hfl;
    cbn [except_Exception mbind result_bind].
  - destruct (decide (length fl = 21%nat)) as [Hlen|Hlen].
    + rewrite decide_False by lia. reflexivity.
    + rewrite decide_True by lia. reflexivity.
  - rewrite (mapM_Exception _ _ _ (py_float_Exception float_of_str) Hfl). reflexivity.
Qed.

Lemma accepted_features_length r fl :
  accepted_features r = Some fl -> length fl = 21%nat.
Proof.
  unfold MakeApplicants.accepted_features.
  destruct (parse_features _) as [feats|]; [|discriminate].
  destruct (mapM _ feats) as [fl'|]; [|discriminate].
  destruct (decide (length fl' = 21%nat)); [|discriminate].
  intros [= <-]. assumption.
Qed.

Lemma applicant_obj_has_21 mode idx r fl :
  length fl = 21%nat -> has_21_features (applicant_obj mode idx r fl).
Proof.
  intros Hlen. unfold has_21_features, applicant_obj.
  eexists _, _, fl. split; [reflexivity|]. repeat split; [reflexivity.. | exact Hlen].
Qed.

Lemma main_loop_emits mode : forall rows idx t,
  Forall has_21_features (out t) -> n_ok t = Z.of_nat (length (out t)) ->
  exists t', main_loop mode idx rows t = Ok t'
    /\ Forall has_21_features (out t')
    /\ n_ok t' = Z.of_nat (length (out t'))
    /\ n_ok t' + n_skip t' = n_ok t + n_skip t + Z.of_nat (length rows)
    /\ length (out t') = (length (out t) + length (omap accepted_features rows))%nat.
Proof.
  induction rows as [|r rest IH]; intros idx t Hout Hok.
  - exists t. cbn [MakeApplicants.main_loop length omap list_omap].
    repeat split; try assumption; lia.
  - cbn [MakeApplicants.main_loop]. rewrite row_features_accepted.
    cbn [mbind result_bind omap list_omap].
    destruct (accepted_features r) as [fl|] eqn:Hr.
    + destruct (IH (idx + 1)
                  {| out := out t ++ [applicant_obj mode idx r fl];
                     n_ok := n_ok t + 1; n_skip := n_skip t |})
        as (t' & -> & Hout' & Hok' & Hsum & Hlen).
      { cbn [out]. apply Forall_app. split; [exact Hout|].
        apply Forall_singleton, applicant_obj_has_21.
        exact (accepted_features_length r fl Hr). }
      { cbn [out n_ok]. rewrite length_app. simpl. lia. }
      exists t'. cbn [out n_ok n_skip] in *. rewrite length_app in Hlen.
      repeat split; try assumption; simpl in *; lia.
    + destruct (IH (idx + 1)
                  {| out := out t; n_ok := n_ok t; n_skip := n_skip t + 1 |})
        as (t' & -> & Hout' & Hok' & Hsum & Hlen); [exact Hout | exact Hok |].
      exists t'. cbn [out n_ok n_skip] in *.
      repeat split; try assumption; simpl in *; lia.
Qed.

(** *** What the trainer's loader makes of the emitted records *)

Lemma load_emitted_records (loads : string -> result pyval) (py_repr : pyval -> string) :
  forall lines objs id2x,
    Forall2 (fun line o => strip line <> "" /\ loads (strip line) = Ok o) lines objs ->
    Forall has_21_features objs ->
    (forall i x, id2x !! i = Some x -> length x = 21%nat) ->
    exists id2x',
      TrainRanker.load_applicants_loop loads float_of_str py_repr id2x lines = Ok id2x'
      /\ forall i x, id2x' !! i = Some x -> length x = 21%nat.
Proof.
  intros lines objs id2x Hdec. revert id2x.
  induction Hdec as [|line o lines objs [Hne Ho] _ IH]; intros id2x Hobjs Hinv.
  - exists id2x. split; [reflexivity | exact Hinv].
  - apply Forall_cons in Hobjs as [(d & id_ & feats & -> & Hid & Hx & Hlen) Hobjs].
    cbn [TrainRanker.load_applicants_loop]. unfold TrainRanker.applicant_step.
    rewrite (applicant_entry_dict loads float_of_str py_repr line d Hne Ho), Hid, Hx.
    cbn [default from_option id py_str].
    destruct (decide (id_ = "")) as [Hempty|Hfull]; cbn [mbind result_bind].
    + exact (IH id2x Hobjs Hinv).
    + rewrite mapM_py_float_PFloat. cbn [mbind result_bind].
      apply (IH (<[id_ := feats]> id2x) Hobjs).
      intros i x. rewrite lookup_insert. case_decide as Hi.
      * intros [= <-]. exact Hlen.
      * apply Hinv.
Qed.

(** C8: whatever the rows, the adapter finishes, and every record it has
    written is a dict whose [features] list holds exactly 21 floats.  A row
    is written exactly when its features field parses to a list whose
    entries all coerce to floats and number 21; a row whose field is missing
    or unparseable, has an entry that does not coerce, or has another
    length is counted as skipped and nothing is written for it.  So the
    feature map the trainer's loader builds from the written records has
    only vectors of length 21. *)
Theorem adapter_emits_21_features (mode : id_mode) (rows : list csv_row) :
  exists t,
    main mode rows = Ok t
    /\ Forall has_21_features (out t)
    /\ (forall r, row_features r = Ok (accepted_features r))
    /\ length (out t) = length (omap accepted_features rows)
    /\ n_ok t = Z.of_nat (length (out t))
    /\ n_ok t + n_skip t = Z.of_nat (length rows)
    /\ (forall r,
          (forall k, k ∈ ["features_json"; "features"; "featuresJson"] ->
                     r !! k = None \/ r !! k = Some None) ->
          row_features r = Ok None)
    /\ (forall (loads : string -> result pyval) (py_repr : pyval -> string) lines,
          Forall2 (fun line o => strip line <> "" /\ loads (strip line) = Ok o)
            lines (out t) ->
          exists id2x,
            TrainRanker.load_applicants_jsonl loads float_of_str py_repr lines = Ok id2x
            /\ (forall i x, id2x !! i = Some x -> length x = 21%nat)
            /\ TrainRanker.vectors_cover id2x 21).
Proof.
  destruct (main_loop_emits mode rows 1 {| out := []; n_ok := 0; n_skip := 0 |})
    as (t & Hmain & Hout & Hok & Hsum & Hlen); [constructor | reflexivity |].
  cbn [out n_ok n_skip] in Hsum, Hlen.
  exists t. split; [exact Hmain|]. split; [exact Hout|].
  split; [exact row_features_accepted|]. split; [exact Hlen|].
  split; [exact Hok|]. split; [lia|]. split.
  - intros r Hmiss. rewrite row_features_accepted. f_equal.
    unfold MakeApplicants.accepted_features.
    assert (Hraw : first r ["features_json"; "features"; "featuresJson"] "" = "").
    { pose proof (Hmiss "features_json" ltac:(repeat constructor)) as H1.
      pose proof (Hmiss "features" ltac:(repeat constructor)) as H2.
      pose proof (Hmiss "featuresJson" ltac:(repeat constructor)) as H3.
      cbn [first].
      destruct H1 as [-> | ->], H2 as [-> | ->], H3 as [-> | ->]; reflexivity. }
    rewrite Hraw. reflexivity.
  - intros loads py_repr lines Hdec.
    destruct (load_emitted_records loads py_repr lines (out t) ∅ Hdec Hout)
      as (id2x & Hload & Hinv).
    { intros i x Hi. rewrite lookup_empty in Hi. discriminate. }
    exists id2x. split; [exact Hload|]. split; [exact Hinv|].
    intros i x Hi. rewrite (Hinv i x Hi). reflexivity.
Qed.

End AdapterFacts.

(** ** The stand-ins satisfy what the theorems ask of a runtime *)

Lemma exp_max_above_35 z :
  (F64.f35 <? z)%f64 = false -> (Runtime.exp_max <? z)%f64 = false.
Proof.
  destruct z as [s|[|]| |[|] m e]; try reflexivity; try discriminate.
  unfold F64.ltb, SFltb, SFcompare, F64.f35, Runtime.exp_max.
  destruct (Z.compare_spec (-47) e), (Z.compare_spec (-43) e);
    try lia; try discriminate; reflexivity.
Qed.

Lemma exp_max_above_neg z :
  (z <? F64.fm35)%f64 = false -> (Runtime.exp_max <? - z)%f64 = false.
Proof.
  destruct z as [s|[|]| |[|] m e]; try reflexivity; try discriminate.
  unfold F64.ltb, SFltb, SFcompare, F64.fm35, Runtime.exp_max, F64.neg, SFopp, negb.
  destruct (Z.compare_spec e (-47)), (Z.compare_spec (-43) e);
    try lia; try discriminate; reflexivity.
Qed.

Lemma exp_ref_in_range x e :
  Runtime.exp_ref x = Some e ->
  F64.is_nan x = false ->
  (F64.mone <? e)%f64 = true /\ F64.is_zero (F64.one + e)%f64 = false.
Proof.
  unfold Runtime.exp_ref. intros H Hnan. rewrite Hnan in H.
  destruct (Runtime.exp_max <? x)%f64; [discriminate|].
  injection H as <-.
  destruct (Runtime.in_exp_range _) eqn:Hr; [|split; reflexivity].
  unfold Runtime.in_exp_range in Hr. apply andb_true_iff in Hr as [Hlt Hz].
  split; [exact Hlt|]. apply negb_true_iff. exact Hz.
Qed.

Lemma ref_libm_guarded : TrainRanker.libm_guarded Runtime.exp_ref Runtime.log1p_ref.
Proof.
  intros z Hhi Hlo.
  destruct (F64.is_nan z) eqn:Hnan.
  { destruct z; try discriminate. exists F64.nan, F64.nan, F64.nan.
    repeat split; reflexivity. }
  assert (Hnan' : F64.is_nan (- z)%f64 = false) by (destruct z; auto).
  destruct (Runtime.exp_ref (- z)%f64) as [e1|] eqn:He1.
  2:{ unfold Runtime.exp_ref in He1.
      rewrite Hnan', (exp_max_above_neg z Hlo) in He1. discriminate. }
  destruct (Runtime.exp_ref z) as [e2|] eqn:He2.
  2:{ unfold Runtime.exp_ref in He2.
      rewrite Hnan, (exp_max_above_35 z Hhi) in He2. discriminate. }
  destruct (exp_ref_in_range _ _ He1 Hnan') as [Hlt1 _].
  destruct (exp_ref_in_range _ _ He2 Hnan) as [_ Hz2].
  assert (Hell : exists ell, Runtime.log1p_ref e1 = Some ell).
  { unfold Runtime.log1p_ref. rewrite Hlt1.
    destruct (F64.is_nan e1); eexists; reflexivity. }
  destruct Hell as [ell Hell].
  exists e1, ell, e2. auto.
Qed.

Lemma scenario_vectors_cover : TrainRanker.vectors_cover TrainRanker.scenario_map 2.
Proof.
  intros i x. unfold TrainRanker.scenario_map.
  rewrite lookup_insert. case_decide; [intros [= <-]; simpl; lia|].
  rewrite lookup_insert. case_decide; [intros [= <-]; simpl; lia|].
  rewrite lookup_empty. discriminate.
Qed.

(** ** The theorems at concrete inputs *)

Import TrainRanker Runtime Samples.

(** The scenario on the stand-in runtime, with compensated summation. *)
Lemma scenario_one_epoch_witness :
  (train exp_ref log1p_ref sum_neumaier scenario_map [("a", "b", 1)] 2
     (F64.dec 1 1) 1 F64.zero).2
  = Ok ([F64.dec 5 2; (- F64.dec 5 2)%f64], F64.dec 5 2).
Proof.
  apply (scenario_one_epoch exp_ref log1p_ref sum_neumaier).
  - vm_compute. reflexivity.
  - vm_compute. reflexivity.
  - vm_compute. eexists. reflexivity.
  - right. intros l. reflexivity.
Defined.

(** The first pair of the scenario, updated from the zero model. *)
Lemma per_pair_update_witness :
  exists st',
    pair_step exp_ref log1p_ref sum_neumaier scenario_map 2 (F64.dec 1 1) F64.zero
      (first_pass 2) ("a", "b", 1) = Ok st'
    /\ cur_w st' !! 0%nat = Some (F64.dec 5 2)
    /\ cur_w st' !! 1%nat = Some (- F64.dec 5 2)%f64
    /\ cur_b st' = F64.dec 5 2
    /\ cur_n st' = 1.
Proof.
  destruct (per_pair_update exp_ref log1p_ref sum_neumaier scenario_map 2
              (F64.dec 1 1) F64.zero (first_pass 2) "a" "b" 1
              [F64.one; F64.zero] [F64.zero; F64.one]
              (default F64.zero (log1p_ref F64.one)) F64.half [])
    as (st' & Hstep & _ & Hval & Hb & _ & Hn & _).
  - vm_compute. reflexivity.
  - vm_compute. reflexivity.
  - vm_compute. reflexivity.
  - reflexivity.
  - vm_compute. lia.
  - exists st'. split; [exact Hstep|]. split; [|split; [|split]].
    + rewrite (Hval 0%nat F64.zero F64.one eq_refl eq_refl). vm_compute. reflexivity.
    + rewrite (Hval 1%nat F64.zero F64.mone eq_refl eq_refl). vm_compute. reflexivity.
    + rewrite Hb. vm_compute. reflexivity.
    + rewrite Hn. reflexivity.
Defined.

(** The pair of the scenario at three margins: 0 from the zero model, -100
    and 100 from a model that puts the weight 100 on the first feature. *)
Lemma pair_margin_three_way_witness :
  pair_step exp_ref log1p_ref sum_neumaier scenario_map 2 (F64.dec 1 1) F64.zero
    (first_pass 2) ("a", "b", 1)
  = Ok {| cur_w := [F64.dec 5 2; (- F64.dec 5 2)%f64]; cur_b := F64.dec 5 2;
          cur_loss := (F64.zero + default F64.zero (log1p_ref F64.one))%f64;
          cur_n := 1 |}
  /\ pair_step exp_ref log1p_ref sum_neumaier scenario_map 2 (F64.dec 1 1) F64.zero
       leaning_pass ("a", "b", 0)
     = Ok {| cur_w := [F64.dec 999 1; F64.dec 1 1]; cur_b := (- F64.dec 1 1)%f64;
             cur_loss := F64.of_int 100; cur_n := 1 |}
  /\ pair_step exp_ref log1p_ref sum_neumaier scenario_map 2 (F64.dec 1 1) F64.zero
       leaning_pass ("a", "b", 1)
     = Ok {| cur_w := [F64.of_int 100; F64.zero]; cur_b := F64.zero;
             cur_loss := F64.zero; cur_n := 1 |}.
Proof.
  split; [|split].
  - pose proof (pair_margin_three_way exp_ref log1p_ref sum_neumaier scenario_map 2
                  (F64.dec 1 1) F64.zero (first_pass 2) "a" "b" 1
                  [F64.one; F64.zero] [F64.zero; F64.one] eq_refl eq_refl) as H.
    cbv zeta in H. destruct H as (_ & _ & H & _).
    destruct H as [H _]; [vm_compute; reflexivity..|].
    rewrite (H F64.one (default F64.zero (log1p_ref F64.one)) F64.one);
      vm_compute; reflexivity.
  - pose proof (pair_margin_three_way exp_ref log1p_ref sum_neumaier scenario_map 2
                  (F64.dec 1 1) F64.zero leaning_pass "a" "b" 0
                  [F64.one; F64.zero] [F64.zero; F64.one] eq_refl eq_refl) as H.
    cbv zeta in H. destruct H as (_ & H & _).
    rewrite H; vm_compute; reflexivity.
  - pose proof (pair_margin_three_way exp_ref log1p_ref sum_neumaier scenario_map 2
                  (F64.dec 1 1) F64.zero leaning_pass "a" "b" 1
                  [F64.one; F64.zero] [F64.zero; F64.one] eq_refl eq_refl) as H.
    cbv zeta in H. destruct H as (H & _).
    rewrite H; vm_compute; reflexivity.
Defined.

(** Two applicants whose one feature is [1e200] and [-1e200], one pair
    labelled both ways, [lr = 0.1] and [l2 = 0], from the zero model.  Every
    input is finite.  The first pair leaves the finite weight [1e199]; on
    the second the product [1e199 * 2e200] overflows, the margin is [-inf],
    below -35, the loss contribution [-z] is [+inf], and the epoch reports
    an infinite average loss next to a finite model. *)
Lemma extreme_margin_infinite_loss :
  exists st1 z st2 w b,
    pair_step exp_ref log1p_ref sum_neumaier steep_map 1 (F64.dec 1 1) F64.zero
      (first_pass 1) ("a", "b", 1) = Ok st1
    /\ cur_w st1 = [(F64.dec 1 1 * steep)%f64] /\ cur_b st1 = F64.dec 5 2
    /\ Forall (fun v => F64.is_finite v = true)
         (cur_b st1 :: cur_loss st1 :: cur_w st1 ++ [F64.dec 1 1; steep; (- steep)%f64])
    /\ z = (F64.mone
             * (sum_neumaier
                  (zip_with F64.mul (cur_w st1) (zip_with F64.sub [steep] [(- steep)%f64]))
                + cur_b st1))%f64
    /\ z = S754_infinity true
    /\ (z <? F64.fm35)%f64 = true
    /\ loss_sig exp_ref log1p_ref z = Ok (S754_infinity false, F64.one)
    /\ pair_step exp_ref log1p_ref sum_neumaier steep_map 1 (F64.dec 1 1) F64.zero
         st1 ("a", "b", 0) = Ok st2
    /\ cur_loss st2 = S754_infinity false
    /\ train exp_ref log1p_ref sum_neumaier steep_map [("a", "b", 1); ("a", "b", 0)] 1
         (F64.dec 1 1) 1 F64.zero
       = ([{| rep_ep := 1; rep_avg_loss := S754_infinity false;
              rep_l2term := F64.nan; rep_used_pairs := 2 |}], Ok ([w], b))
    /\ F64.is_finite w = true /\ F64.is_finite b = true.
Proof.
  do 5 eexists.
  split; [vm_compute; reflexivity|].
  split; [vm_compute; reflexivity|].
  split; [vm_compute; reflexivity|].
  split; [repeat constructor|].
  split; [reflexivity|].
  split; [vm_compute; reflexivity|].
  split; [vm_compute; reflexivity|].
  split; [vm_compute; reflexivity|].
  split; [vm_compute; reflexivity|].
  split; [vm_compute; reflexivity|].
  split; [vm_compute; reflexivity|].
  split; reflexivity.
Qed.

(** A pair that names the unknown identifier ["c"], and the pair of the
    scenario, on which the stand-in runtime keeps the contract. *)
Lemma zero_usable_pairs_is_fatal_witness :
  (train exp_ref log1p_ref sum_neumaier scenario_map [("a", "c", 1)] 2
     (F64.dec 1 1) 1 F64.zero
   = ([], Raise (SystemExit no_usable_pairs))
   /\ run_pairs exp_ref log1p_ref sum_neumaier scenario_map 2 (F64.dec 1 1) F64.zero
        (first_pass 2) [("a", "c", 1)] = Ok (first_pass 2))
  /\ (forall log e,
        train exp_ref log1p_ref sum_neumaier scenario_map [("a", "b", 1)] 2
          (F64.dec 1 1) 1 F64.zero <> (log, Raise e)).
Proof.
  split.
  - apply (proj1 (zero_usable_pairs_is_fatal exp_ref log1p_ref sum_neumaier
                    scenario_map [("a", "c", 1)] 2 (F64.dec 1 1) 1 F64.zero)).
    + lia.
    + apply Forall_singleton. right. vm_compute. reflexivity.
  - intros log e Hraise.
    destruct (zero_usable_pairs_is_fatal exp_ref log1p_ref sum_neumaier
                scenario_map [("a", "b", 1)] 2 (F64.dec 1 1) 1 F64.zero)
      as (_ & Hexit & Hother).
    pose proof (Hother scenario_vectors_cover ref_libm_guarded log e Hraise) as ->.
    destruct (Hexit log no_usable_pairs Hraise) as [_ Hall].
    rewrite Forall_singleton in Hall.
    destruct Hall as [Hall | Hall]; vm_compute in Hall; discriminate.
Defined.

Lemma unknown_identifier_skips_pair_witness :
  pair_step exp_ref log1p_ref sum_neumaier scenario_map 2 (F64.dec 1 1) F64.zero
    (first_pass 2) ("a", "c", 1) = Ok (first_pass 2)
  /\ run_pairs exp_ref log1p_ref sum_neumaier scenario_map 2 (F64.dec 1 1) F64.zero
       (first_pass 2) [("a", "c", 1); ("a", "b", 1)]
     = run_pairs exp_ref log1p_ref sum_neumaier scenario_map 2 (F64.dec 1 1) F64.zero
         (first_pass 2) [("a", "b", 1)].
Proof.
  apply (unknown_identifier_skips_pair exp_ref log1p_ref sum_neumaier).
  right. vm_compute. reflexivity.
Defined.

(** Two records without a usable id, loaded one after the other. *)
Lemma missing_id_is_stored_as_None_witness :
  applicant_step (loads_or_raise docs) float_of_decimal repr_opaque ∅ line_no_id
  = Ok (<["None" := [F64.of_int 1; F64.of_int 2]]> ∅)
  /\ load_applicants_loop (loads_or_raise docs) float_of_decimal repr_opaque ∅
       [line_no_id; line_null_id]
     = Ok (<["None" := [F64.of_int 3]]> ∅).
Proof.
  apply (proj1 (proj2 (missing_id_is_stored_as_None (loads_or_raise docs)
                         float_of_decimal repr_opaque))
           ∅ line_no_id line_null_id obj_no_id obj_null_id
           [PInt 1; PInt 2] [PInt 3]).
  - vm_compute. discriminate.
  - vm_compute. reflexivity.
  - vm_compute. discriminate.
  - vm_compute. reflexivity.
  - left. reflexivity.
  - right. reflexivity.
  - reflexivity.
  - vm_compute. reflexivity.
  - reflexivity.
  - vm_compute. reflexivity.
Defined.


(** A sheet of three rows, of which only the first has 21 features. *)
Lemma adapter_emits_21_features_witness :
  exists t,
    MakeApplicants.main (loads_table docs) (loads_table docs) float_of_decimal
      MakeApplicants.uni_timestamp [row_full; row_short; row_empty] = Ok t
    /\ Forall MakeApplicants.has_21_features (MakeApplicants.out t)
    /\ length (MakeApplicants.out t) = 1%nat
    /\ MakeApplicants.n_ok t = 1
    /\ MakeApplicants.n_skip t = 2.
Proof.
  destruct (adapter_emits_21_features (loads_table docs) (loads_table docs)
              float_of_decimal MakeApplicants.uni_timestamp
              [row_full; row_short; row_empty])
    as (t & Hmain & Hout & _ & Hlen & Hok & Hsum & _).
  assert (Hone : length (MakeApplicants.out t) = 1%nat).
  { rewrite Hlen. vm_compute. reflexivity. }
  exists t. split; [exact Hmain|]. split; [exact Hout|]. split; [exact Hone|].
  rewrite Hone in Hok. simpl in Hsum. split; lia.
Defined.

(** The model of the scenario, as [save_model] would write it. *)
Lemma saved_model_schema_witness :
  model_obj round_ref 2 [F64.dec 5 2; (- F64.dec 5 2)%f64] (F64.dec 5 2) !! "dim"
  = Some (PInt 2)
  /\ model_obj round_ref 2 [F64.dec 5 2; (- F64.dec 5 2)%f64] (F64.dec 5 2) !! "weights"
     = Some (PList [PFloat (F64.dec 5 2); PFloat (- F64.dec 5 2)%f64])
  /\ model_obj round_ref 2 [F64.dec 5 2; (- F64.dec 5 2)%f64] (F64.dec 5 2) !! "bias"
     = Some (PFloat (F64.dec 5 2)).
Proof.
  pose proof (saved_model_schema round_ref repr_opaque ∅ "rank_model.json" 2
                [F64.dec 5 2; (- F64.dec 5 2)%f64] (F64.dec 5 2)) as H.
  cbv zeta in H. destruct H as (_ & (ws & Hws & Hdim & Hlen & _) & Hb & _).
  split; [|split].
  - rewrite Hdim, Hlen. reflexivity.
  - vm_compute. reflexivity.
  - rewrite Hb. vm_compute. reflexivity.
Defined.

(** ** Outside the contract *)

(** The margin [-inf] takes the linear branch: its loss [-z] is [+inf]. *)
Example loss_sig_at_minus_infinity :
  loss_sig exp_ref log1p_ref (S754_infinity true) = Ok (S754_infinity false, F64.one).
Proof. reflexivity. Qed.

(** A NaN margin passes both guards and reaches the libm calls. *)
Example loss_sig_at_nan :
  loss_sig exp_ref log1p_ref F64.nan = Ok (F64.nan, F64.nan).
Proof. vm_compute. reflexivity. Qed.

(** With [dim = 3] the vectors of the scenario are too short: [dx[2]] raises. *)
Example train_short_vector :
  train exp_ref log1p_ref sum_neumaier scenario_map [("a", "b", 1)] 3
    (F64.dec 1 1) 1 F64.zero
  = ([], Raise IndexError).
Proof. vm_compute. reflexivity. Qed.

(** * Further properties *)

(** ** The trainer: shape of the result *)

Section TrainerShape.

Variable math_exp : float -> option float.
Variable math_log1p : float -> option float.
Variable py_sum : list float -> float.

Local Abbreviation loss_sig := (TrainRanker.loss_sig math_exp math_log1p).
Local Abbreviation pair_step := (TrainRanker.pair_step math_exp math_log1p py_sum).
Local Abbreviation run_pairs := (TrainRanker.run_pairs math_exp math_log1p py_sum).
Local Abbreviation epoch := (TrainRanker.epoch math_exp math_log1p py_sum).
Local Abbreviation run_epochs := (TrainRanker.run_epochs math_exp math_log1p py_sum).
Local Abbreviation train := (TrainRanker.train math_exp math_log1p py_sum).
Local Abbreviation dot := (TrainRanker.dot py_sum).

Lemma update_w_length lr l2 gscale dx : forall ks w w',
  update_w lr l2 gscale dx ks w = Ok w' -> length w' = length w.
Proof.
  induction ks as [|k ks IH]; intros w w'; cbn [update_w].
  - intros [= <-]. reflexivity.
  - intros H. apply bind_Ok_inv in H as (wk & _ & H).
    apply bind_Ok_inv in H as (dxk & _ & H).
    apply IH in H. rewrite H. apply length_insert.
Qed.

Lemma pair_step_length id2x dim lr l2 st p st' :
  pair_step id2x dim lr l2 st p = Ok st' -> length (cur_w st') = length (cur_w st).
Proof.
  destruct p as [[i j] y01]. unfold TrainRanker.pair_step.
  destruct (id2x !! i) as [xi|]; [|intros [= <-]; reflexivity].
  destruct (id2x !! j) as [xj|]; [|intros [= <-]; reflexivity].
  intros H. apply bind_Ok_inv in H as ([ell sig] & _ & H).
  apply bind_Ok_inv in H as (w' & Hup & H). injection H as <-.
  exact (update_w_length _ _ _ _ _ _ _ Hup).
Qed.

Lemma run_pairs_length id2x dim lr l2 : forall pairs st st',
  run_pairs id2x dim lr l2 st pairs = Ok st' -> length (cur_w st') = length (cur_w st).
Proof.
  induction pairs as [|p rest IH]; intros st st'; cbn [TrainRanker.run_pairs].
  - intros [= <-]. reflexivity.
  - intros H. apply bind_Ok_inv in H as (st1 & Hstep & H).
    rewrite (IH _ _ H). exact (pair_step_length _ _ _ _ _ _ _ Hstep).
Qed.

(** What an epoch that returns has done. *)
Lemma epoch_Ok_inv id2x pairs dim lr l2 ep wb wb' r :
  epoch id2x pairs dim lr l2 ep wb = Ok (wb', r) ->
  length wb'.1 = length wb.1
  /\ rep_ep r = ep
  /\ rep_used_pairs r = Z.of_nat (length (filter (usable id2x) pairs))
  /\ 0 < rep_used_pairs r.
Proof.
  unfold TrainRanker.epoch. intros H.
  apply bind_Ok_inv in H as (st & Hrun & H).
  pose proof (run_pairs_length _ _ _ _ _ _ _ Hrun) as Hlen.
  pose proof (run_pairs_count math_exp math_log1p py_sum _ _ _ _ _ _ _ Hrun) as Hn.
  cbn [cur_w cur_n] in Hlen, Hn.
  destruct (Z.eqb_spec (cur_n st) 0) as [|Hnz]; [discriminate|].
  injection H as <- <-. cbn [fst rep_ep rep_used_pairs].
  repeat split; [exact Hlen | lia | lia].
Qed.

Lemma run_epochs_Ok_inv id2x pairs dim lr l2 : forall eps wb log log' wb',
  run_epochs id2x pairs dim lr l2 eps wb log = (log', Ok wb') ->
  length wb'.1 = length wb.1
  /\ exists rs, log' = log ++ rs
       /\ map rep_ep rs = eps
       /\ Forall (fun r => rep_used_pairs r
                           = Z.of_nat (length (filter (usable id2x) pairs))) rs
       /\ (eps <> [] -> filter (usable id2x) pairs <> []).
Proof.
  induction eps as [|ep eps IH]; intros wb log log' wb'; cbn [TrainRanker.run_epochs].
  - intros [= <- <-]. split; [reflexivity|]. exists [].
    rewrite app_nil_r. repeat split; [constructor | congruence].
  - destruct (epoch id2x pairs dim lr l2 ep wb) as [[wb1 r]|e] eqn:Hep; [|discriminate].
    apply epoch_Ok_inv in Hep as (Hlen & Hr & Hused & Hpos).
    intros H. apply IH in H as (Hlen' & rs & -> & Heps & Hall & _).
    split; [congruence|]. exists (r :: rs). rewrite <- app_assoc.
    repeat split.
    + cbn [map]. congruence.
    + constructor; assumption.
    + intros _ Hnil. rewrite Hnil in Hused. simpl in Hused. lia.
Qed.

(** X1: Whenever [train] returns, the weight vector has [dim] entries (none
    for a [dim] that is zero or negative), whatever the lengths of the
    feature vectors were. *)
Theorem train_returns_dim_weights id2x pairs dim lr epochs l2 log w b :
  train id2x pairs dim lr epochs l2 = (log, Ok (w, b)) ->
  length w = Z.to_nat dim.
Proof.
  unfold TrainRanker.train. intros H.
  apply run_epochs_Ok_inv in H as [Hlen _]. cbn [fst] in Hlen.
  rewrite Hlen. apply length_replicate.
Qed.

(** X2: Whenever [train] returns, it has printed one report per epoch, numbered
    1, 2, ... up to [epochs] in order, and each report shows the same count
    of used pairs: the number of pairs of the list whose two identifiers
    are in the feature map, which is positive as soon as an epoch ran. *)
Theorem train_reports_every_epoch id2x pairs dim lr epochs l2 log wb :
  train id2x pairs dim lr epochs l2 = (log, Ok wb) ->
  map rep_ep log = map (fun k => Z.of_nat k) (seq 1 (Z.to_nat epochs))
  /\ length log = Z.to_nat epochs
  /\ Forall (fun r => rep_used_pairs r
                      = Z.of_nat (length (filter (usable id2x) pairs))) log
  /\ (0 < epochs -> exists p, p ∈ pairs /\ usable id2x p).
Proof.
  unfold TrainRanker.train. intros H.
  apply run_epochs_Ok_inv in H as (_ & rs & Hlog & Heps & Hall & Hne).
  cbn [app] in Hlog. subst log.
  split; [exact Heps|]. split.
  { rewrite <- (length_map rep_ep), Heps, length_map, length_seq. reflexivity. }
  split; [exact Hall|].
  intros Hpos.
  destruct (filter (usable id2x) pairs) as [|p ps] eqn:Hf.
  { exfalso. apply Hne; [|reflexivity].
    destruct (Z.to_nat epochs) eqn:Hk; [lia | discriminate]. }
  assert (Hin : p ∈ filter (usable id2x) pairs) by (rewrite Hf; left).
  apply list_elem_of_filter in Hin as [Hu Hin]. exists p. split; assumption.
Qed.

End TrainerShape.

(** ** The trainer: what of its input it reads *)

Section TrainerInputs.

Variable math_exp : float -> option float.
Variable math_log1p : float -> option float.
Variable py_sum : list float -> float.

Local Abbreviation loss_sig := (TrainRanker.loss_sig math_exp math_log1p).
Local Abbreviation pair_step := (TrainRanker.pair_step math_exp math_log1p py_sum).
Local Abbreviation run_pairs := (TrainRanker.run_pairs math_exp math_log1p py_sum).
Local Abbreviation epoch := (TrainRanker.epoch math_exp math_log1p py_sum).
Local Abbreviation run_epochs := (TrainRanker.run_epochs math_exp math_log1p py_sum).
Local Abbreviation train := (TrainRanker.train math_exp math_log1p py_sum).
Local Abbreviation dot := (TrainRanker.dot py_sum).

Lemma run_pairs_app id2x dim lr l2 : forall pairs1 pairs2 st,
  run_pairs id2x dim lr l2 st (pairs1 ++ pairs2)
  = (st' ← run_pairs id2x dim lr l2 st pairs1; run_pairs id2x dim lr l2 st' pairs2).
Proof.
  induction pairs1 as [|p rest IH]; intros pairs2 st; [reflexivity|].
  cbn [app TrainRanker.run_pairs].
  destruct (pair_step id2x dim lr l2 st p) as [st1|e]; [|reflexivity].
  cbn [mbind result_bind]. apply IH.
Qed.

Lemma run_pairs_filter id2x dim lr l2 : forall pairs st,
  run_pairs id2x dim lr l2 st (filter (usable id2x) pairs)
  = run_pairs id2x dim lr l2 st pairs.
Proof.
  induction pairs as [|p rest IH]; intros st; [reflexivity|].
  rewrite filter_cons. destruct (decide (usable id2x p)) as [Hu|Hu].
  - cbn [TrainRanker.run_pairs].
    destruct (pair_step id2x dim lr l2 st p) as [st1|e]; [|reflexivity].
    cbn [mbind result_bind]. apply IH.
  - cbn [TrainRanker.run_pairs].
    rewrite (pair_step_skip math_exp math_log1p py_sum) by exact Hu.
    cbn [mbind result_bind]. apply IH.
Qed.

Lemma filter_usable_idemp id2x (pairs : list (string * string * Z)) :
  filter (usable id2x) (filter (usable id2x) pairs) = filter (usable id2x) pairs.
Proof.
  induction pairs as [|p rest IH]; [reflexivity|].
  rewrite filter_cons. destruct (decide (usable id2x p)) as [Hu|Hu]; [|exact IH].
  rewrite filter_cons, decide_True by exact Hu. rewrite IH. reflexivity.
Qed.

(** X3: Dropping beforehand the pairs with an identifier that is not in the
    feature map changes nothing: [train] returns the same weights and bias,
    raises the same exception and prints the same reports. *)
Theorem train_drops_unusable_pairs id2x pairs dim lr epochs l2 :
  train id2x (filter (usable id2x) pairs) dim lr epochs l2
  = train id2x pairs dim lr epochs l2.
Proof.
  unfold TrainRanker.train.
  generalize (replicate (Z.to_nat dim) F64.zero, F64.zero) as wb.
  generalize (@nil report) as log.
  induction (map (fun k => Z.of_nat k) (seq 1 (Z.to_nat epochs))) as [|ep eps IH];
    intros log wb; [reflexivity|].
  cbn [TrainRanker.run_epochs]. unfold TrainRanker.epoch.
  rewrite run_pairs_filter.
  destruct (run_pairs id2x dim lr l2 _ pairs) as [st|e]; [|reflexivity].
  cbn [mbind result_bind]. destruct (cur_n st =? 0); [reflexivity|].
  apply IH.
Qed.

Lemma update_w_ext lr l2 gscale dx dx' : forall ks w,
  (forall k, k ∈ ks -> dx !! k = dx' !! k) ->
  update_w lr l2 gscale dx ks w = update_w lr l2 gscale dx' ks w.
Proof.
  induction ks as [|k ks IH]; intros w Hks; [reflexivity|].
  cbn [update_w].
  assert (Hk : getitem dx k = getitem dx' k).
  { unfold getitem. rewrite (Hks k) by left. reflexivity. }
  rewrite Hk.
  destruct (getitem w k) as [wk|e]; [|reflexivity]. cbn [mbind result_bind].
  destruct (getitem dx' k) as [dxk|e]; [|reflexivity]. cbn [mbind result_bind].
  apply IH. intros k' Hk'. apply Hks. right. exact Hk'.
Qed.

Lemma pair_step_take id2x dim lr l2 st p :
  (length (cur_w st) <= Z.to_nat dim)%nat ->
  pair_step (take (Z.to_nat dim) <$> id2x) dim lr l2 st p
  = pair_step id2x dim lr l2 st p.
Proof.
  intros Hw. destruct p as [[i j] y01]. unfold TrainRanker.pair_step.
  rewrite !lookup_fmap.
  destruct (id2x !! i) as [xi|]; [|reflexivity].
  destruct (id2x !! j) as [xj|]; [|reflexivity].
  cbn [fmap option_fmap option_map].
  rewrite <- zip_with_take.
  set (dx := zip_with F64.sub xi xj).
  assert (Hdot : dot (cur_w st) (take (Z.to_nat dim) dx) = dot (cur_w st) dx).
  { unfold TrainRanker.dot. rewrite zip_with_take_r' by lia. reflexivity. }
  rewrite Hdot.
  destruct (loss_sig _) as [[ell sig]|e]; [|reflexivity]. cbn [mbind result_bind].
  rewrite (update_w_ext _ _ _ (take (Z.to_nat dim) dx) dx); [reflexivity|].
  intros k Hk. unfold range in Hk. apply elem_of_seq in Hk.
  apply lookup_take_lt. lia.
Qed.

Lemma run_pairs_take id2x dim lr l2 : forall pairs st,
  (length (cur_w st) <= Z.to_nat dim)%nat ->
  run_pairs (take (Z.to_nat dim) <$> id2x) dim lr l2 st pairs
  = run_pairs id2x dim lr l2 st pairs.
Proof.
  induction pairs as [|p rest IH]; intros st Hw; [reflexivity|].
  cbn [TrainRanker.run_pairs]. rewrite pair_step_take by exact Hw.
  destruct (pair_step id2x dim lr l2 st p) as [st1|e] eqn:Hstep; [|reflexivity].
  cbn [mbind result_bind]. apply IH.
  rewrite (pair_step_length _ _ _ _ _ _ _ _ _ _ Hstep). exact Hw.
Qed.

(** X4: The trainer reads the first [dim] entries of a feature vector and no
    others: cutting every vector of the feature map down to its first [dim]
    entries changes neither the result nor the reports.  A vector longer
    than [dim] is thus accepted silently. *)
Theorem train_ignores_entries_beyond_dim id2x pairs dim lr epochs l2 :
  train (take (Z.to_nat dim) <$> id2x) pairs dim lr epochs l2
  = train id2x pairs dim lr epochs l2.
Proof.
  unfold TrainRanker.train.
  assert (Hgen : forall eps wb log, (length wb.1 <= Z.to_nat dim)%nat ->
            run_epochs (take (Z.to_nat dim) <$> id2x) pairs dim lr l2 eps wb log
            = run_epochs id2x pairs dim lr l2 eps wb log).
  { induction eps as [|ep eps IH]; intros wb log Hw; [reflexivity|].
    cbn [TrainRanker.run_epochs].
    assert (Hep : epoch (take (Z.to_nat dim) <$> id2x) pairs dim lr l2 ep wb
                  = epoch id2x pairs dim lr l2 ep wb).
    { unfold TrainRanker.epoch. rewrite run_pairs_take by exact Hw. reflexivity. }
    rewrite Hep.
    destruct (epoch id2x pairs dim lr l2 ep wb) as [[wb1 r]|e] eqn:Hok; [|reflexivity].
    apply IH.
    apply (epoch_Ok_inv math_exp math_log1p py_sum) in Hok as [Hlen _]. lia. }
  apply Hgen. cbn [fst]. rewrite length_replicate. lia.
Qed.

Lemma update_w_app lr l2 gscale dx : forall ks1 ks2 w,
  update_w lr l2 gscale dx (ks1 ++ ks2) w
  = (w1 ← update_w lr l2 gscale dx ks1 w; update_w lr l2 gscale dx ks2 w1).
Proof.
  induction ks1 as [|k ks1 IH]; intros ks2 w; [reflexivity|].
  cbn [app update_w].
  destruct (getitem w k) as [wk|e]; [|reflexivity]. cbn [mbind result_bind].
  destruct (getitem dx k) as [dxk|e]; [|reflexivity]. cbn [mbind result_bind].
  apply IH.
Qed.

Lemma update_w_short lr l2 gscale dx (d : nat) (w : list float) :
  length w = d -> (length dx < d)%nat ->
  update_w lr l2 gscale dx (seq 0 d) w = Raise IndexError.
Proof.
  intros Hw Hdx.
  replace d with (length dx + S (d - S (length dx)))%nat by lia.
  rewrite seq_app, update_w_app.
  destruct (update_w_range lr l2 gscale dx (length dx) 0 w) as (w1 & -> & Hlen & _);
    [lia..|].
  cbn [mbind result_bind seq update_w plus].
  destruct (getitem_Ok w1 (length dx)) as (wk & _ & ->); [lia|].
  cbn [mbind result_bind]. unfold getitem.
  rewrite (lookup_ge_None_2 dx (length dx)) by lia. reflexivity.
Qed.

(** X5: Bounds: on a usable pair one of whose vectors has fewer than [dim]
    entries, the weight loop reads [dx[k]] past the end of [dx] and the
    pair step raises [IndexError]; when such a pair is the first usable one
    of the list, [train] raises it in its first epoch, before any report. *)
Theorem short_vector_raises_IndexError id2x dim lr l2 epochs pre i j y01 rest xi xj :
  libm_guarded math_exp math_log1p ->
  id2x !! i = Some xi -> id2x !! j = Some xj ->
  (length xi `min` length xj < Z.to_nat dim)%nat ->
  Forall (fun p => ~ usable id2x p) pre ->
  0 < epochs ->
  (forall st, length (cur_w st) = Z.to_nat dim ->
     pair_step id2x dim lr l2 st (i, j, y01) = Raise IndexError)
  /\ train id2x (pre ++ (i, j, y01) :: rest) dim lr epochs l2 = ([], Raise IndexError).
Proof.
  intros Hlibm Hi Hj Hshort Hpre Hep.
  assert (Hstep : forall st, length (cur_w st) = Z.to_nat dim ->
     pair_step id2x dim lr l2 st (i, j, y01) = Raise IndexError).
  { intros st Hw. unfold TrainRanker.pair_step. rewrite Hi, Hj.
    destruct (loss_sig_Ok math_exp math_log1p
                ((if y01 =? 1 then F64.one else F64.mone)
                 * (dot (cur_w st) (zip_with F64.sub xi xj) + cur_b st))%f64 Hlibm)
      as [[ell sig] ->].
    cbn [mbind result_bind]. unfold range.
    rewrite update_w_short; [reflexivity | exact Hw |].
    rewrite length_zip_with. exact Hshort. }
  split; [exact Hstep|].
  unfold TrainRanker.train.
  destruct (Z.to_nat epochs) as [|k] eqn:Hk; [lia|].
  cbn [seq map TrainRanker.run_epochs]. unfold TrainRanker.epoch.
  rewrite run_pairs_app.
  rewrite (run_pairs_all_skipped math_exp math_log1p py_sum) by exact Hpre.
  cbn [mbind result_bind TrainRanker.run_pairs fst snd].
  rewrite Hstep; [reflexivity|]. cbn [cur_w]. apply length_replicate.
Qed.

End TrainerInputs.

(** ** The applicants loader: the map it builds and how it fails *)

Section ApplicantsLoaderMore.

Variable json_loads : string -> result pyval.
Variable float_of_str : string -> option float.
Variable py_repr : pyval -> string.

Local Abbreviation applicant_entry :=
  (TrainRanker.applicant_entry json_loads float_of_str py_repr).
Local Abbreviation applicant_step :=
  (TrainRanker.applicant_step json_loads float_of_str py_repr).
Local Abbreviation load_applicants_loop :=
  (TrainRanker.load_applicants_loop json_loads float_of_str py_repr).
Local Abbreviation load_applicants_jsonl :=
  (TrainRanker.load_applicants_jsonl json_loads float_of_str py_repr).

Lemma load_applicants_loop_app : forall lines1 lines2 id2x,
  load_applicants_loop id2x (lines1 ++ lines2)
  = (m ← load_applicants_loop id2x lines1; load_applicants_loop m lines2).
Proof.
  induction lines1 as [|line rest IH]; intros lines2 id2x; [reflexivity|].
  cbn [app TrainRanker.load_applicants_loop].
  destruct (applicant_step id2x line) as [m|e]; [|reflexivity].
  cbn [mbind result_bind]. apply IH.
Qed.

(** The loop from [id2x] over lines that all return: each id is bound to
    the features of the last entry that carries it, and an id that no entry
    carries keeps what [id2x] had for it. *)
Lemma load_applicants_loop_last : forall lines id2x m,
  load_applicants_loop id2x lines = Ok m ->
  exists es,
    Forall2 (fun line e => applicant_entry line = Ok e) lines es
    /\ forall k,
         m !! k =
           match last (filter (fun e => e.1 = k) (omap id es)) with
           | Some e => Some e.2
           | None => id2x !! k
           end.
Proof.
  induction lines as [|line rest IH]; intros id2x m; cbn [TrainRanker.load_applicants_loop].
  - intros [= <-]. exists []. split; [constructor | reflexivity].
  - intros H. apply bind_Ok_inv in H as (m1 & Hstep & H).
    unfold TrainRanker.applicant_step in Hstep.
    apply bind_Ok_inv in Hstep as (e & He & Hstep).
    destruct (IH _ _ H) as (es & Hes & Hm).
    exists (e :: es). split; [constructor; assumption|].
    intros k. rewrite Hm. destruct e as [[k0 fl0]|]; injection Hstep as <-;
      cbn [omap list_omap id]; [|reflexivity].
    rewrite filter_cons. cbn [fst].
    destruct (decide (k0 = k)) as [->|Hne].
    + destruct (filter _ (omap id es)) as [|e' l'] eqn:Hf.
      * cbn [last snd]. apply lookup_insert_eq.
      * change (last ((k, fl0) :: e' :: l')) with (last (e' :: l')).
        destruct (last (e' :: l')) eqn:Hl; [reflexivity|].
        apply last_None in Hl. discriminate.
    + destruct (last _); [reflexivity|]. apply lookup_insert_ne. exact Hne.
Qed.

(** X7: When the applicants loader returns, every line has returned an entry
    or nothing, and the feature map binds an identifier exactly when some
    entry carries it, to the features of the last such entry: a repeated
    identifier silently keeps its last vector. *)
Theorem load_applicants_last_record_wins lines m :
  load_applicants_jsonl lines = Ok m ->
  exists es,
    Forall2 (fun line e => applicant_entry line = Ok e) lines es
    /\ forall k, m !! k = snd <$> last (filter (fun e => e.1 = k) (omap id es)).
Proof.
  intros H. apply load_applicants_loop_last in H as (es & Hes & Hm).
  exists es. split; [exact Hes|]. intros k. rewrite Hm.
  destruct (last _); [reflexivity | apply lookup_empty].
Qed.

(** The exceptions of one line, by cause. *)
Lemma applicant_entry_Raise_iff line e :
  applicant_entry line = Raise e <->
  strip line <> ""
  /\ (json_loads (strip line) = Raise e
      \/ (exists v, json_loads (strip line) = Ok v
            /\ (forall d, v <> PDict d) /\ e = AttributeError)
      \/ (exists d l, json_loads (strip line) = Ok (PDict d)
            /\ py_str py_repr (default PNone (d !! "id")) <> ""
            /\ default PNone (d !! "features") = PList l
            /\ mapM (py_float float_of_str) l = Raise e)).
Proof.
  unfold TrainRanker.applicant_entry.
  destruct (decide (strip line = "")) as [Hempty|Hne].
  { split; [discriminate | intros [Hne _]; contradiction]. }
  split.
  - intros H. split; [exact Hne|].
    destruct (json_loads (strip line)) as [v|e0]; cbn [mbind result_bind] in H.
    2:{ left. congruence. }
    destruct v as [| | | | | | | |d];
      try (right; left; eexists; split; [reflexivity|];
           split; [intros d'; discriminate | cbn in H; congruence]).
    right. right. cbn [obj_get mbind result_bind] in H.
    destruct (decide (py_str py_repr (default PNone (d !! "id")) = "")) as [|Hid];
      [discriminate|].
    destruct (default PNone (d !! "features")) as [| | | | | |l| |] eqn:Hx;
      try discriminate.
    exists d, l. repeat split; try assumption.
    destruct (mapM (py_float float_of_str) l); [discriminate|].
    cbn [mbind result_bind] in H. congruence.
  - intros [_ [Hdec | [(v & Hdec & Hv & ->) | (d & l & Hdec & Hid & Hx & Hfl)]]];
      rewrite Hdec; cbn [mbind result_bind].
    + reflexivity.
    + destruct v as [| | | | | | | |d]; try reflexivity.
      exfalso. exact (Hv d eq_refl).
    + cbn [obj_get mbind result_bind]. rewrite decide_False by exact Hid.
      rewrite Hx, Hfl. reflexivity.
Qed.

(** X8: One bad line fails the whole load.  After lines that all return, a
    line that raises makes [load_applicants_jsonl] raise the same exception,
    whatever follows it, and no feature map is returned.  A line raises
    exactly when it is not blank and one of three things happens:
    [json.loads] raises on it, and that exception is the one passed on (a
    [ValueError] for a text that is not JSON, a [RecursionError] for one
    nested too deeply); what it decodes to is not an object
    ([AttributeError]); or it is an object with a non-empty [str(id)] whose
    features list has an entry that [float] rejects, with the exception of
    [float].  Unless the decoder does it, no line raises [SystemExit]. *)
Theorem bad_line_fails_the_load pre line post e :
  Forall (fun l => is_Ok (applicant_entry l)) pre ->
  applicant_entry line = Raise e ->
  load_applicants_jsonl (pre ++ line :: post) = Raise e
  /\ (forall e',
        applicant_entry line = Raise e' <->
        strip line <> ""
        /\ (json_loads (strip line) = Raise e'
            \/ (exists v, json_loads (strip line) = Ok v
                  /\ (forall d, v <> PDict d) /\ e' = AttributeError)
            \/ (exists d l, json_loads (strip line) = Ok (PDict d)
                  /\ py_str py_repr (default PNone (d !! "id")) <> ""
                  /\ default PNone (d !! "features") = PList l
                  /\ mapM (py_float float_of_str) l = Raise e')))
  /\ (json_loads (strip line) <> Raise e -> is_Exception e = true).
Proof.
  intros Hpre Hline.
  assert (Hload : forall id2x, exists m, load_applicants_loop id2x pre = Ok m).
  { induction Hpre as [|l pre [en Hen] _ IH]; intros id2x; [eexists; reflexivity|].
    cbn [TrainRanker.load_applicants_loop]. unfold TrainRanker.applicant_step.
    rewrite Hen. cbn [mbind result_bind].
    destruct en as [[k fl]|]; apply IH. }
  split.
  { unfold TrainRanker.load_applicants_jsonl. rewrite load_applicants_loop_app.
    destruct (Hload ∅) as [m ->]. cbn [mbind result_bind TrainRanker.load_applicants_loop].
    unfold TrainRanker.applicant_step. rewrite Hline. reflexivity. }
  split; [intros e'; apply applicant_entry_Raise_iff|].
  intros Hdec.
  destruct (proj1 (applicant_entry_Raise_iff line e) Hline) as [_ Hcause].
  destruct Hcause as [Hraise | [(v & _ & _ & ->) | (d & l & _ & _ & _ & Hfl)]];
    [contradiction | reflexivity |].
  exact (mapM_Exception _ _ _ (py_float_Exception float_of_str) Hfl).
Qed.

End ApplicantsLoaderMore.

(** ** The pairs loader: missing cells and missing columns *)

Section PairsLoaderMore.

Variable float_of_str : string -> option float.

Local Abbreviation label_int := (TrainRanker.label_int float_of_str).
Local Abbreviation pair_of_row := (TrainRanker.pair_of_row float_of_str).
Local Abbreviation load_pairs_csv := (TrainRanker.load_pairs_csv float_of_str).
Local Abbreviation kept_pair := (TrainRanker.kept_pair float_of_str).

Lemma load_pairs_csv_kept rows :
  load_pairs_csv rows = Ok (omap kept_pair rows).
Proof.
  unfold TrainRanker.load_pairs_csv.
  rewrite (load_pairs_loop_kept float_of_str). reflexivity.
Qed.

Lemma omap_length_le {A B} (f : A -> option B) (l : list A) :
  (length (omap f l) <= length l)%nat.
Proof.
  induction l as [|x l IH]; [reflexivity|].
  cbn [omap list_omap]. destruct (f x); simpl; lia.
Qed.

Lemma kept_pair_well_formed r i j y :
  kept_pair r = Some (i, j, y) -> i <> "" /\ j <> "" /\ (y = 0 \/ y = 1).
Proof.
  unfold TrainRanker.kept_pair.
  destruct (decide (field_str r "i" = "" \/ field_str r "j" = "")) as [|Hne];
    [discriminate|].
  destruct (label_int r) as [y'|]; [|discriminate].
  destruct (decide (y' = 0 \/ y' = 1)) as [Hy|]; [|discriminate].
  intros [= <- <- <-]. tauto.
Qed.

(** X10: Whatever the rows, the pairs the loader returns are in row order, no
    more than the rows, and every one has two non-empty identifiers and a
    label that is the int 0 or the int 1: the trainer's test [y01 == 1]
    sees no other value. *)
Theorem loaded_pairs_are_well_formed rows :
  exists pairs,
    load_pairs_csv rows = Ok pairs
    /\ (length pairs <= length rows)%nat
    /\ Forall (fun p => p.1.1 <> "" /\ p.1.2 <> "" /\ (p.2 = 0 \/ p.2 = 1)) pairs
    /\ (forall p, p ∈ pairs -> exists r, r ∈ rows /\ pair_of_row r = Ok (Some p)).
Proof.
  exists (omap kept_pair rows). split; [apply load_pairs_csv_kept|].
  split; [apply omap_length_le|]. split.
  - apply Forall_forall. intros [[i j] y] Hin.
    apply list_elem_of_omap in Hin as (r & _ & Hr).
    exact (kept_pair_well_formed r i j y Hr).
  - intros p Hin. apply list_elem_of_omap in Hin as (r & Hr & Hp).
    exists r. split; [exact Hr|].
    rewrite (pair_of_row_kept float_of_str). f_equal. exact Hp.
Qed.

(** X11: A row cut short before one of its identifier cells is not dropped:
    [csv.DictReader] binds the missing cell to [None], which [str] turns
    into the identifier ["None"], so the row is kept under that name when
    its other identifier is non-empty and its label is valid. *)
Theorem short_row_identifier_is_None r y :
  label_int r = Ok y -> (y = 0 \/ y = 1) ->
  (r !! "i" = Some None -> field_str r "j" <> "" ->
   pair_of_row r = Ok (Some ("None", field_str r "j", y)))
  /\ (r !! "j" = Some None -> field_str r "i" <> "" ->
      pair_of_row r = Ok (Some (field_str r "i", "None", y))).
Proof.
  intros Hy H01.
  split; intros Hcell Hother; rewrite (pair_of_row_kept float_of_str);
    unfold TrainRanker.kept_pair; rewrite Hy.
  - assert (Hi : field_str r "i" = "None") by (unfold field_str; rewrite Hcell; reflexivity).
    rewrite Hi. rewrite decide_False by (intros [|]; [discriminate | contradiction]).
    rewrite decide_True by exact H01. reflexivity.
  - assert (Hj : field_str r "j" = "None") by (unfold field_str; rewrite Hcell; reflexivity).
    rewrite Hj. rewrite decide_False by (intros [|]; [contradiction | discriminate]).
    rewrite decide_True by exact H01. reflexivity.
Qed.

(** X12: A pairs file whose header has no [i] column, or no [j] column, loads
    as the empty list without any error, whatever its rows hold. *)
Theorem pairs_without_identifier_column rows :
  (forall r, r ∈ rows -> r !! "i" = None) \/ (forall r, r ∈ rows -> r !! "j" = None) ->
  load_pairs_csv rows = Ok [].
Proof.
  intros Hcol. rewrite load_pairs_csv_kept. f_equal.
  induction rows as [|r rest IH]; [reflexivity|].
  cbn [omap list_omap].
  assert (Hr : kept_pair r = None).
  { unfold TrainRanker.kept_pair, field_str.
    destruct Hcol as [Hi | Hj].
    - rewrite (Hi r) by left. rewrite decide_True by (left; reflexivity). reflexivity.
    - rewrite (Hj r) by left. rewrite decide_True by (right; reflexivity). reflexivity. }
  rewrite Hr. apply IH.
  destruct Hcol as [Hi | Hj]; [left | right]; intros r' Hr'; [apply Hi | apply Hj];
    right; exact Hr'.
Qed.

End PairsLoaderMore.

(** ** The adapter: column lookup *)

(** X13: [first] returns the cell of the earliest of the given keys that the row
    binds to a cell, skipping keys that are absent or bound to [None]; it
    returns the default exactly when no key is bound to a cell. *)
Theorem first_takes_earliest_bound_key (r : csv_row) (keys : list string) (d v : string) :
  MakeApplicants.first r keys d = v <->
  (exists pre k post,
     keys = pre ++ k :: post
     /\ Forall (fun k' => r !! k' = None \/ r !! k' = Some None) pre
     /\ r !! k = Some (Some v))
  \/ (Forall (fun k' => r !! k' = None \/ r !! k' = Some None) keys /\ v = d).
Proof.
  revert v. induction keys as [|k keys IH]; intros v; cbn [MakeApplicants.first].
  - split.
    + intros <-. right. split; [constructor | reflexivity].
    + intros [(pre & k & post & Hk & _) | [_ ->]]; [|reflexivity].
      destruct pre; discriminate.
  - destruct (r !! k) as [[c|]|] eqn:Hk.
    + split.
      * intros <-. left. exists [], k, keys. split; [reflexivity|].
        split; [constructor | exact Hk].
      * intros [(pre & k' & post & Hkeys & Hpre & Hv) | [Hall _]].
        -- destruct pre as [|k0 pre]; cbn [app] in Hkeys;
             injection Hkeys as <- _; [congruence|].
           apply Forall_cons in Hpre as [[H0 | H0] _]; congruence.
        -- apply Forall_cons in Hall as [[H0 | H0] _]; congruence.
    + rewrite IH. split.
      * intros [(pre & k' & post & -> & Hpre & Hv) | [Hall ->]].
        -- left. exists (k :: pre), k', post. split; [reflexivity|].
           split; [constructor; [right; exact Hk | exact Hpre] | exact Hv].
        -- right. split; [constructor; [right; exact Hk | exact Hall] | reflexivity].
      * intros [(pre & k' & post & Hkeys & Hpre & Hv) | [Hall ->]].
        -- destruct pre as [|k0 pre]; cbn [app] in Hkeys;
             injection Hkeys as <- Hkeys; [congruence|].
           left. exists pre, k', post. apply Forall_cons in Hpre as [_ Hpre]. auto.
        -- right. apply Forall_cons in Hall as [_ Hall]. auto.
    + rewrite IH. split.
      * intros [(pre & k' & post & -> & Hpre & Hv) | [Hall ->]].
        -- left. exists (k :: pre), k', post. split; [reflexivity|].
           split; [constructor; [left; exact Hk | exact Hpre] | exact Hv].
        -- right. split; [constructor; [left; exact Hk | exact Hall] | reflexivity].
      * intros [(pre & k' & post & Hkeys & Hpre & Hv) | [Hall ->]].
        -- destruct pre as [|k0 pre]; cbn [app] in Hkeys;
             injection Hkeys as <- Hkeys; [congruence|].
           left. exists pre, k', post. apply Forall_cons in Hpre as [_ Hpre]. auto.
        -- right. apply Forall_cons in Hall as [_ Hall]. auto.
Qed.

(** ** The adapter: identifiers and the order of the output *)

Lemma pretty_N_go_grows (x : N) : forall s,
  (String.length s <= String.length (pretty_N_go x s))%nat.
Proof.
  induction (N.lt_wf_0 x) as [x _ IH]; intros s.
  destruct (decide (x = 0)%N) as [->|Hx]; [rewrite pretty_N_go_0; reflexivity|].
  rewrite pretty_N_go_step by lia.
  etransitivity; [|apply IH; apply N.div_lt; lia]. simpl. lia.
Qed.

Lemma pretty_Z_nonempty (z : Z) : pretty z <> "".
Proof.
  destruct z as [|p|p]; [discriminate| |discriminate].
  unfold pretty, pretty_Z, pretty, pretty_positive, pretty, pretty_N.
  rewrite decide_False by discriminate.
  rewrite pretty_N_go_step by lia.
  intros Hempty.
  pose proof (pretty_N_go_grows (N.pos p `div` 10)
                (String (pretty_N_char (N.pos p `mod` 10)) "")) as Hlen.
  rewrite Hempty in Hlen. simpl in Hlen. lia.
Qed.

Lemma applicant_id_nonempty mode uni timestamp idx :
  MakeApplicants.applicant_id mode uni timestamp idx <> "".
Proof.
  unfold MakeApplicants.applicant_id.
  destruct mode; cbn [andb]; [|apply pretty_Z_nonempty].
  destruct uni as [|a uni]; cbn [truthy andb]; [apply pretty_Z_nonempty|].
  destruct (truthy timestamp); discriminate.
Qed.

Lemma record_id_applicant_obj mode idx r fl :
  MakeApplicants.record_id (MakeApplicants.applicant_obj mode idx r fl)
  = Some (MakeApplicants.applicant_id mode
            (strip (MakeApplicants.first r ["uni"] ""))
            (strip (MakeApplicants.first r ["timestamp"] "")) idx).
Proof. reflexivity. Qed.

Lemma record_features_applicant_obj mode idx r fl :
  MakeApplicants.record_features (MakeApplicants.applicant_obj mode idx r fl)
  = Some (map PFloat fl).
Proof. reflexivity. Qed.

(** What the trainer's loader makes of a line that decodes to a record. *)
Lemma applicant_entry_record loads float_of_str py_repr line o id_ fl :
  strip line <> "" -> loads (strip line) = Ok o ->
  MakeApplicants.record_id o = Some id_ ->
  MakeApplicants.record_features o = Some (map PFloat fl) ->
  TrainRanker.applicant_entry loads float_of_str py_repr line
  = Ok (if decide (id_ = "") then None else Some (id_, fl)).
Proof.
  intros Hne Ho Hid Hfl.
  destruct o as [| | | | | | | |d]; try discriminate.
  cbn [MakeApplicants.record_id MakeApplicants.record_features] in Hid, Hfl.
  destruct (d !! "id") as [[| | | |s| | | |]|] eqn:Hdid; try discriminate.
  injection Hid as ->.
  destruct (d !! "features") as [[| | | | | |l| |]|] eqn:Hdx; try discriminate.
  injection Hfl as ->.
  rewrite (applicant_entry_dict loads float_of_str py_repr line d Hne Ho), Hdid, Hdx.
  cbn [default from_option id py_str].
  destruct (decide (id_ = "")); [reflexivity|].
  rewrite mapM_py_float_PFloat. reflexivity.
Qed.

Section AdapterMore.

Variable json_loads : string -> option pyval.
Variable literal_eval : string -> option pyval.
Variable float_of_str : string -> option float.

Import MakeApplicants.

Local Abbreviation row_features :=
  (MakeApplicants.row_features json_loads literal_eval float_of_str).
Local Abbreviation accepted_features :=
  (MakeApplicants.accepted_features json_loads literal_eval float_of_str).
Local Abbreviation main_loop := (MakeApplicants.main_loop json_loads literal_eval float_of_str).
Local Abbreviation main := (MakeApplicants.main json_loads literal_eval float_of_str).

Lemma main_loop_out mode : forall rows idx t t',
  main_loop mode idx rows t = Ok t' ->
  out t' = out t ++
    omap id (imap (fun n r => applicant_obj mode (idx + Z.of_nat n) r
                                <$> accepted_features r) rows).
Proof.
  induction rows as [|r rest IH]; intros idx t t'; cbn [MakeApplicants.main_loop].
  - intros [= <-]. cbn. rewrite app_nil_r. reflexivity.
  - rewrite (row_features_accepted json_loads literal_eval float_of_str).
    cbn [mbind result_bind]. rewrite imap_cons. cbn [omap list_omap].
    replace (idx + Z.of_nat 0) with idx by lia.
    assert (Hshift : imap ((fun n r0 => applicant_obj mode (idx + Z.of_nat n) r0
                                          <$> accepted_features r0) ∘ S) rest
                     = imap (fun n r0 => applicant_obj mode (idx + 1 + Z.of_nat n) r0
                                          <$> accepted_features r0) rest).
    { apply imap_ext. intros n r0 _. cbn [compose].
      replace (idx + Z.of_nat (S n)) with (idx + 1 + Z.of_nat n) by lia. reflexivity. }
    rewrite Hshift.
    destruct (accepted_features r) as [fl|]; intros H; apply IH in H;
      cbn [out] in H; rewrite H; cbn [fmap option_fmap option_map id].
    + rewrite <- app_assoc. reflexivity.
    + reflexivity.
Qed.

(** X14: The adapter writes the records in row order, and the row number that
    goes into an identifier is the 1-based position of the row in the
    sheet, rows that were skipped included. *)
Theorem adapter_writes_in_row_order (mode : id_mode) (rows : list csv_row) :
  exists t,
    main mode rows = Ok t
    /\ out t = omap id (imap (fun n r => applicant_obj mode (Z.of_nat n + 1) r
                                           <$> accepted_features r) rows).
Proof.
  destruct (main_loop_emits json_loads literal_eval float_of_str mode rows 1
              {| out := []; n_ok := 0; n_skip := 0 |})
    as (t & Hmain & _); [constructor | reflexivity |].
  exists t. split; [exact Hmain|].
  rewrite (main_loop_out mode rows 1 _ t Hmain). cbn [out app]. f_equal.
  apply imap_ext. intros n r _.
  replace (1 + Z.of_nat n) with (Z.of_nat n + 1) by lia. reflexivity.
Qed.

(** *** From the sheet to the trainer's feature map *)

Lemma out_members mode idx rows t t' o :
  main_loop mode idx rows t = Ok t' -> o ∈ out t' ->
  o ∈ out t
  \/ exists (n : nat) r fl,
       rows !! n = Some r /\ accepted_features r = Some fl
       /\ o = applicant_obj mode (idx + Z.of_nat n) r fl.
Proof.
  intros Hloop Hin. rewrite (main_loop_out mode rows idx t t' Hloop) in Hin.
  apply elem_of_app in Hin as [Hin | Hin]; [left; exact Hin | right].
  apply list_elem_of_omap in Hin as (x & Hx & Hid). cbn [id] in Hid. subst x.
  apply elem_of_lookup_imap in Hx as (n & r & Hf & Hr).
  destruct (accepted_features r) as [fl|] eqn:Hacc; [|discriminate].
  injection Hf as ->. exists n, r, fl. split; [exact Hr|]. split; [exact Hacc | reflexivity].
Qed.

Lemma load_records_dom (loads : string -> result pyval) (py_repr : pyval -> string) :
  forall lines objs id2x,
    Forall2 (fun line o => strip line <> "" /\ loads (strip line) = Ok o) lines objs ->
    Forall (fun o => exists id_ fl, record_id o = Some id_ /\ id_ <> ""
                       /\ record_features o = Some (map PFloat fl)) objs ->
    exists m,
      TrainRanker.load_applicants_loop loads float_of_str py_repr id2x lines = Ok m
      /\ forall k, is_Some (m !! k) <->
           is_Some (id2x !! k) \/ exists o, o ∈ objs /\ record_id o = Some k.
Proof.
  intros lines objs id2x Hdec. revert id2x.
  induction Hdec as [|line o lines objs [Hne Ho] _ IH]; intros id2x Hobjs.
  - exists id2x. split; [reflexivity|]. intros k. split; [auto|].
    intros [H | (o & Ho & _)]; [exact H | inversion Ho].
  - apply Forall_cons in Hobjs as [(id_ & fl & Hid & Hfull & Hfl) Hobjs].
    cbn [TrainRanker.load_applicants_loop]. unfold TrainRanker.applicant_step.
    rewrite (applicant_entry_record loads float_of_str py_repr line o id_ fl Hne Ho Hid Hfl).
    rewrite decide_False by exact Hfull. cbn [mbind result_bind].
    destruct (IH (<[id_ := fl]> id2x) Hobjs) as (m & Hm & Hdom).
    exists m. split; [exact Hm|]. intros k. rewrite Hdom, lookup_insert.
    case_decide as Hk.
    + subst k. split; intros _; [right; exists o; split; [left | exact Hid]
                                | left; eexists; reflexivity].
    + split.
      * intros [H | (o' & Ho' & Hid')]; [left; exact H|].
        right. exists o'. split; [right; exact Ho' | exact Hid'].
      * intros [H | (o' & Ho' & Hid')]; [left; exact H|].
        apply elem_of_cons in Ho' as [-> | Ho']; [congruence|].
        right. exists o'. split; assumption.
Qed.

(** X15: No written record is lost on the way to the trainer for want of an
    identifier: the adapter never writes an empty id, so the loader stores
    every record, and the identifiers of the feature map it returns are
    exactly the identifiers of the written records. *)
Theorem every_written_record_is_loaded (mode : id_mode) (rows : list csv_row) t
    (loads : string -> result pyval) (py_repr : pyval -> string) lines :
  main mode rows = Ok t ->
  Forall2 (fun line o => strip line <> "" /\ loads (strip line) = Ok o)
    lines (out t) ->
  exists id2x,
    TrainRanker.load_applicants_jsonl loads float_of_str py_repr lines = Ok id2x
    /\ (forall o, o ∈ out t ->
          exists id_, record_id o = Some id_ /\ id_ <> "" /\ is_Some (id2x !! id_))
    /\ (forall k, is_Some (id2x !! k) -> exists o, o ∈ out t /\ record_id o = Some k).
Proof.
  intros Hmain Hdec.
  assert (Hrec : Forall (fun o => exists id_ fl, record_id o = Some id_ /\ id_ <> ""
                                    /\ record_features o = Some (map PFloat fl)) (out t)).
  { apply Forall_forall. intros o Ho.
    destruct (out_members mode 1 rows _ t o Hmain Ho) as [Hin | (n & r & fl & _ & _ & ->)];
      [inversion Hin|].
    eexists _, fl. split; [apply record_id_applicant_obj|].
    split; [apply applicant_id_nonempty | apply record_features_applicant_obj]. }
  destruct (load_records_dom loads py_repr lines (out t) ∅ Hdec Hrec) as (m & Hload & Hdom).
  exists m. split; [exact Hload|]. split.
  - intros o Ho.
    destruct (proj1 (Forall_forall _ _) Hrec o Ho) as (id_ & fl & Hid & Hfull & _).
    exists id_. split; [exact Hid|]. split; [exact Hfull|].
    apply Hdom. right. exists o. split; assumption.
  - intros k Hk. apply Hdom in Hk as [Hk | Hk]; [|exact Hk].
    rewrite lookup_empty in Hk. destruct Hk; discriminate.
Qed.

Lemma load_row_records (loads : string -> result pyval) (py_repr : pyval -> string) :
  forall rows idx lines id2x,
    Forall2 (fun line o => strip line <> "" /\ loads (strip line) = Ok o) lines
      (omap id (imap (fun n r => applicant_obj row (idx + Z.of_nat n) r
                                   <$> accepted_features r) rows)) ->
    exists m,
      TrainRanker.load_applicants_loop loads float_of_str py_repr id2x lines = Ok m
      /\ (forall (n : nat) r, rows !! n = Some r ->
            (forall n' : nat, id2x !! pretty (idx + Z.of_nat n') = None) ->
            m !! pretty (idx + Z.of_nat n) = accepted_features r)
      /\ (forall k, (forall n : nat, (n < length rows)%nat ->
                                      k <> pretty (idx + Z.of_nat n)) ->
            m !! k = id2x !! k).
Proof.
  induction rows as [|r rest IH]; intros idx lines id2x Hdec.
  - cbn in Hdec. apply Forall2_nil_inv_r in Hdec as ->.
    exists id2x. split; [reflexivity|]. split; [intros n r Hr; discriminate | reflexivity].
  - rewrite imap_cons in Hdec. cbn [omap list_omap] in Hdec.
    replace (idx + Z.of_nat 0) with idx in Hdec by lia.
    assert (Hshift : imap ((fun n r0 => applicant_obj row (idx + Z.of_nat n) r0
                                          <$> accepted_features r0) ∘ S) rest
                     = imap (fun n r0 => applicant_obj row (idx + 1 + Z.of_nat n) r0
                                          <$> accepted_features r0) rest).
    { apply imap_ext. intros n r0 _. cbn [compose].
      replace (idx + Z.of_nat (S n)) with (idx + 1 + Z.of_nat n) by lia. reflexivity. }
    rewrite Hshift in Hdec.
    assert (Hidx : forall n' : nat, idx + Z.of_nat (S n') = idx + 1 + Z.of_nat n') by lia.
    destruct (accepted_features r) as [fl|] eqn:Hr;
      cbn [fmap option_fmap option_map id] in Hdec.
    + apply Forall2_cons_inv_r in Hdec as (line & lines' & [Hne Ho] & Hdec & ->).
      cbn [TrainRanker.load_applicants_loop]. unfold TrainRanker.applicant_step.
      rewrite (applicant_entry_record loads float_of_str py_repr line _ (pretty idx) fl
                 Hne Ho eq_refl eq_refl).
      rewrite decide_False by apply pretty_Z_nonempty. cbn [mbind result_bind].
      destruct (IH (idx + 1) lines' (<[pretty idx := fl]> id2x) Hdec)
        as (m & Hm & Hval & Hframe).
      exists m. split; [exact Hm|]. split.
      * intros [|n] r' Hr' Hfresh.
        -- cbn in Hr'. injection Hr' as <-. replace (idx + Z.of_nat 0) with idx by lia.
           rewrite Hframe, lookup_insert_eq, Hr; [reflexivity|].
           intros n _ Heq. apply (inj pretty) in Heq. lia.
        -- cbn in Hr'. rewrite Hidx. apply Hval; [exact Hr'|].
           intros n'. rewrite lookup_insert_ne.
           ++ rewrite <- Hidx. apply Hfresh.
           ++ intros Heq. apply (inj pretty) in Heq. lia.
      * intros k Hk. rewrite Hframe.
        -- apply lookup_insert_ne. intros <-. apply (Hk 0%nat); [simpl; lia|].
           replace (idx + Z.of_nat 0) with idx by lia. reflexivity.
        -- intros n Hn. rewrite <- Hidx. apply Hk. simpl. lia.
    + destruct (IH (idx + 1) lines id2x Hdec) as (m & Hm & Hval & Hframe).
      exists m. split; [exact Hm|]. split.
      * intros [|n] r' Hr' Hfresh.
        -- cbn in Hr'. injection Hr' as <-. replace (idx + Z.of_nat 0) with idx by lia.
           rewrite Hframe, Hr.
           ++ specialize (Hfresh 0%nat). replace (idx + Z.of_nat 0) with idx in Hfresh by lia.
              exact Hfresh.
           ++ intros n _ Heq. apply (inj pretty) in Heq. lia.
        -- cbn in Hr'. rewrite Hidx. apply Hval; [exact Hr'|].
           intros n'. rewrite <- Hidx. apply Hfresh.
      * intros k Hk. apply Hframe.
        intros n Hn. rewrite <- Hidx. apply Hk. simpl. lia.
Qed.

(** X16: Round trip in [row] mode, from the sheet through the written records to
    the trainer's feature map: the map binds the decimal number of a row
    (counted from 1) to the 21 features of that row when the row was
    accepted, binds nothing to the number of a skipped row, and binds
    nothing else. *)
Theorem row_mode_round_trip (rows : list csv_row) t
    (loads : string -> result pyval) (py_repr : pyval -> string) lines :
  main row rows = Ok t ->
  Forall2 (fun line o => strip line <> "" /\ loads (strip line) = Ok o)
    lines (out t) ->
  exists id2x,
    TrainRanker.load_applicants_jsonl loads float_of_str py_repr lines = Ok id2x
    /\ (forall (n : nat) r, rows !! n = Some r ->
          id2x !! pretty (Z.of_nat n + 1) = accepted_features r)
    /\ (forall k, (forall n : nat, (n < length rows)%nat -> k <> pretty (Z.of_nat n + 1)) ->
          id2x !! k = None).
Proof.
  intros Hmain Hdec.
  rewrite (main_loop_out row rows 1 _ t Hmain) in Hdec. cbn [out app] in Hdec.
  destruct (load_row_records loads py_repr rows 1 lines ∅ Hdec) as (m & Hload & Hval & Hframe).
  exists m. split; [exact Hload|]. split.
  - intros n r Hr. replace (Z.of_nat n + 1) with (1 + Z.of_nat n) by lia.
    apply Hval; [exact Hr|]. intros n'. apply lookup_empty.
  - intros k Hk. rewrite Hframe; [apply lookup_empty|].
    intros n Hn. replace (1 + Z.of_nat n) with (Z.of_nat n + 1) by lia. apply Hk. exact Hn.
Qed.

(** X17: In [uni_timestamp] mode the row number plays no part in the identifier
    of a row that has both a uni and a timestamp: two such rows with the
    same uni and timestamp are written under one identifier, and the
    trainer's loader keeps the features of the later one only. *)
Theorem same_uni_and_timestamp_collide (idx1 idx2 : Z) (r1 r2 : csv_row)
    (fl1 fl2 : list float) (loads : string -> result pyval) (py_repr : pyval -> string)
    (line1 line2 : string) (id2x : gmap string (list float)) :
  let uni := strip (first r1 ["uni"] "") in
  let timestamp := strip (first r1 ["timestamp"] "") in
  uni <> "" -> timestamp <> "" ->
  strip (first r2 ["uni"] "") = uni ->
  strip (first r2 ["timestamp"] "") = timestamp ->
  strip line1 <> "" ->
  loads (strip line1) = Ok (applicant_obj uni_timestamp idx1 r1 fl1) ->
  strip line2 <> "" ->
  loads (strip line2) = Ok (applicant_obj uni_timestamp idx2 r2 fl2) ->
  record_id (applicant_obj uni_timestamp idx1 r1 fl1) = Some (uni +:+ "_" +:+ timestamp)
  /\ record_id (applicant_obj uni_timestamp idx2 r2 fl2) = Some (uni +:+ "_" +:+ timestamp)
  /\ TrainRanker.load_applicants_loop loads float_of_str py_repr id2x [line1; line2]
     = Ok (<[uni +:+ "_" +:+ timestamp := fl2]> id2x).
Proof.
  intros uni timestamp Huni Hts Huni2 Hts2 Hne1 Ho1 Hne2 Ho2.
  assert (Hid : forall idx,
            applicant_id uni_timestamp uni timestamp idx = uni +:+ "_" +:+ timestamp).
  { intros idx. unfold applicant_id.
    destruct uni; [contradiction|]. destruct timestamp; [contradiction|]. reflexivity. }
  assert (Hid1 : record_id (applicant_obj uni_timestamp idx1 r1 fl1)
                 = Some (uni +:+ "_" +:+ timestamp)).
  { rewrite record_id_applicant_obj. fold uni. fold timestamp. rewrite Hid. reflexivity. }
  assert (Hid2 : record_id (applicant_obj uni_timestamp idx2 r2 fl2)
                 = Some (uni +:+ "_" +:+ timestamp)).
  { rewrite record_id_applicant_obj, Huni2, Hts2, Hid. reflexivity. }
  split; [exact Hid1|]. split; [exact Hid2|].
  assert (Hfull : uni +:+ "_" +:+ timestamp <> "").
  { rewrite <- (Hid 0). apply applicant_id_nonempty. }
  cbn [TrainRanker.load_applicants_loop]. unfold TrainRanker.applicant_step.
  rewrite (applicant_entry_record loads float_of_str py_repr line1 _ _ fl1 Hne1 Ho1 Hid1
             (record_features_applicant_obj _ _ _ _)).
  rewrite decide_False by exact Hfull. cbn [mbind result_bind].
  rewrite (applicant_entry_record loads float_of_str py_repr line2 _ _ fl2 Hne2 Ho2 Hid2
             (record_features_applicant_obj _ _ _ _)).
  rewrite decide_False by exact Hfull. cbn [mbind result_bind].
  rewrite insert_insert_eq. reflexivity.
Qed.

End AdapterMore.

(** ** tools/train_ranker.py: [main] *)

Section MainFacts.

Variable json_loads : string -> result pyval.
Variable float_of_str : string -> option float.
Variable py_repr : pyval -> string.
Variable math_exp : float -> option float.
Variable math_log1p : float -> option float.
Variable py_sum : list float -> float.
Variable py_round : float -> Z -> float.
Variable json_dumps : pyval -> string.

Local Abbreviation load_applicants_jsonl :=
  (TrainRanker.load_applicants_jsonl json_loads float_of_str py_repr).
Local Abbreviation load_pairs_csv := (TrainRanker.load_pairs_csv float_of_str).
Local Abbreviation train := (TrainRanker.train math_exp math_log1p py_sum).
Local Abbreviation model_obj := (TrainRanker.model_obj py_round).
Local Abbreviation main :=
  (TrainRanker.main json_loads float_of_str py_repr math_exp math_log1p py_sum
     py_round json_dumps).

(** X18: [main] touches the file system in its last step only.  When it returns,
    the file at [--out] holds the serialized model, whose [dim] is the
    [--dim] argument (0 for a negative one) and whose [feature_version] is
    the argument of that name; every other file is as before, and the
    output is the [Loaded] line, one line per epoch, and the [Wrote] line.
    When it raises, in a loader or in [train], the file system is unchanged:
    no model file is written or overwritten, and no [Wrote] line printed. *)
Theorem main_writes_model_only_on_success (a : args) (applicants : list string)
    (pairs : list csv_row) (fs fs' : gmap string string) (printed : list stdout_line)
    (r : result ()) :
  main a applicants pairs fs = (fs', printed, r) ->
  (r = Ok () ->
   exists w b n m log,
     fs' = <[arg_out a := json_dumps (PDict (model_obj (arg_feature_version a) w b))]> fs
     /\ model_obj (arg_feature_version a) w b !! "dim"
        = Some (PInt (Z.of_nat (Z.to_nat (arg_dim a))))
     /\ model_obj (arg_feature_version a) w b !! "feature_version"
        = Some (PInt (arg_feature_version a))
     /\ (forall path, path <> arg_out a -> fs' !! path = fs !! path)
     /\ printed = Loaded n m :: map EpochLine log ++ [Wrote (arg_out a)]
     /\ length log = Z.to_nat (arg_epochs a))
  /\ (forall e, r = Raise e ->
        fs' = fs /\ forall path, Wrote path ∉ printed).
Proof.
  unfold TrainRanker.main.
  destruct (load_applicants_jsonl applicants) as [id2x|e1].
  2:{ intros [= <- <- <-]. split; [discriminate|]. intros e _.
      split; [reflexivity|]. intros path Hin. inversion Hin. }
  destruct (load_pairs_csv pairs) as [ps|e2].
  2:{ intros [= <- <- <-]. split; [discriminate|]. intros e _.
      split; [reflexivity|]. intros path Hin. inversion Hin. }
  destruct (train id2x ps (arg_dim a) (arg_lr a) (arg_epochs a) (arg_l2 a))
    as [log [[w b]|e3]] eqn:Htrain.
  - intros [= <- <- <-]. split; [|discriminate]. intros _.
    unfold TrainRanker.train in Htrain.
    apply (run_epochs_Ok_inv math_exp math_log1p py_sum) in Htrain
      as (Hlen & rs & Hlog & Heps & _).
    cbn [fst app] in Hlen, Hlog. subst rs. rewrite length_replicate in Hlen.
    exists w, b, (Z.of_nat (size id2x)), (Z.of_nat (length ps)), log.
    split; [reflexivity|]. split.
    { unfold TrainRanker.model_obj. rewrite lookup_insert_ne by discriminate.
      rewrite lookup_insert_ne by discriminate. rewrite lookup_insert_eq, Hlen.
      reflexivity. }
    split; [reflexivity|]. split.
    { intros path Hpath. unfold TrainRanker.save_model.
      apply lookup_insert_ne. congruence. }
    split; [reflexivity|].
    rewrite <- (length_map rep_ep), Heps, length_map, length_seq. reflexivity.
  - intros [= <- <- <-]. split; [discriminate|]. intros e _.
    split; [reflexivity|]. intros path Hin.
    apply elem_of_cons in Hin as [Hin | Hin]; [discriminate|].
    apply list_elem_of_fmap in Hin as (rep & Hrep & _). discriminate.
Qed.

(** X19: With at least one epoch asked for, [main] stops with [SystemExit] right
    after the [Loaded] line, and writes nothing, whenever none of the
    loaded pairs has both identifiers among the loaded applicants; an
    applicants file without lines is one such case, whatever the pairs
    file holds. *)
Theorem main_exits_without_usable_pairs (a : args) (applicants : list string)
    (pairs : list csv_row) (fs : gmap string string) :
  0 < arg_epochs a ->
  (forall id2x ps,
     load_applicants_jsonl applicants = Ok id2x -> load_pairs_csv pairs = Ok ps ->
     Forall (fun p => ~ usable id2x p) ps ->
     main a applicants pairs fs
     = (fs, [Loaded (Z.of_nat (size id2x)) (Z.of_nat (length ps))],
        Raise (SystemExit no_usable_pairs)))
  /\ exists m,
       main a [] pairs fs = (fs, [Loaded 0 m], Raise (SystemExit no_usable_pairs)).
Proof.
  intros Hep.
  assert (Hgen : forall id2x ps,
     load_applicants_jsonl applicants = Ok id2x -> load_pairs_csv pairs = Ok ps ->
     Forall (fun p => ~ usable id2x p) ps ->
     main a applicants pairs fs
     = (fs, [Loaded (Z.of_nat (size id2x)) (Z.of_nat (length ps))],
        Raise (SystemExit no_usable_pairs))).
  { intros id2x ps Hload Hpairs Hall.
    unfold TrainRanker.main. rewrite Hload, Hpairs. unfold TrainRanker.train.
    destruct (Z.to_nat (arg_epochs a)) as [|k] eqn:Hk; [lia|].
    cbn [seq map TrainRanker.run_epochs].
    rewrite (epoch_all_skipped math_exp math_log1p py_sum) by exact Hall.
    reflexivity. }
  split; [exact Hgen|].
  exists (Z.of_nat (length (omap (TrainRanker.kept_pair float_of_str) pairs))).
  unfold TrainRanker.main. cbn [TrainRanker.load_applicants_jsonl TrainRanker.load_applicants_loop].
  rewrite (load_pairs_csv_kept float_of_str). unfold TrainRanker.train.
  destruct (Z.to_nat (arg_epochs a)) as [|k] eqn:Hk; [lia|].
  cbn [seq map TrainRanker.run_epochs].
  rewrite (epoch_all_skipped math_exp math_log1p py_sum).
  - reflexivity.
  - apply Forall_forall. intros [[i j] y] _ [[x Hx] _]. cbn in Hx.
    rewrite lookup_empty in Hx. discriminate.
Qed.

End MainFacts.

(** ** The further theorems at concrete inputs *)

(** One epoch in one dimension over the two-entry vectors of the scenario. *)
Lemma train_returns_dim_weights_witness :
  exists log w b,
    train exp_ref log1p_ref sum_neumaier scenario_map [("a", "b", 1)] 1
      (F64.dec 1 1) 1 F64.zero = (log, Ok (w, b))
    /\ length w = 1%nat.
Proof.
  destruct (train exp_ref log1p_ref sum_neumaier scenario_map [("a", "b", 1)] 1
              (F64.dec 1 1) 1 F64.zero) as [log [[w b]|e]] eqn:Htrain;
    [|vm_compute in Htrain; discriminate].
  exists log, w, b. split; [reflexivity|].
  exact (train_returns_dim_weights exp_ref log1p_ref sum_neumaier _ _ _ _ _ _ _ _ _ Htrain).
Defined.

(** Three epochs over a list with one usable pair and one that is not. *)
Lemma train_reports_every_epoch_witness :
  exists log wb,
    train exp_ref log1p_ref sum_neumaier scenario_map [("a", "c", 1); ("a", "b", 1)] 2
      (F64.dec 1 1) 3 F64.zero = (log, Ok wb)
    /\ map rep_ep log = [1; 2; 3]
    /\ Forall (fun r => rep_used_pairs r = 1) log.
Proof.
  destruct (train exp_ref log1p_ref sum_neumaier scenario_map
              [("a", "c", 1); ("a", "b", 1)] 2 (F64.dec 1 1) 3 F64.zero)
    as [log [wb|e]] eqn:Htrain; [|vm_compute in Htrain; discriminate].
  destruct (train_reports_every_epoch exp_ref log1p_ref sum_neumaier _ _ _ _ _ _ _ _ Htrain)
    as (Heps & _ & Hused & _).
  exists log, wb. split; [reflexivity|]. split; [exact Heps | exact Hused].
Defined.

(** No epoch at all, on a list without a usable pair. *)
Lemma train_without_epochs_witness :
  train exp_ref log1p_ref sum_neumaier scenario_map [("a", "c", 1)] 2
    (F64.dec 1 1) 0 F64.zero
  = ([], Ok ([F64.zero; F64.zero], F64.zero)).
Proof.
  apply (train_without_epochs exp_ref log1p_ref sum_neumaier). lia.
Defined.

(** The scenario with a third applicant in the feature map. *)
Lemma train_reads_named_identifiers_only_witness :
  train exp_ref log1p_ref sum_neumaier scenario_map_more [("a", "b", 1)] 2
    (F64.dec 1 1) 1 F64.zero
  = train exp_ref log1p_ref sum_neumaier scenario_map [("a", "b", 1)] 2
      (F64.dec 1 1) 1 F64.zero.
Proof.
  apply (train_reads_named_identifiers_only exp_ref log1p_ref sum_neumaier).
  apply Forall_singleton. split; vm_compute; reflexivity.
Defined.

(** The scenario run in three dimensions, after a pair that is skipped. *)
Lemma short_vector_raises_IndexError_witness :
  train exp_ref log1p_ref sum_neumaier scenario_map [("a", "c", 1); ("a", "b", 1)] 3
    (F64.dec 1 1) 1 F64.zero
  = ([], Raise IndexError).
Proof.
  apply (proj2 (short_vector_raises_IndexError exp_ref log1p_ref sum_neumaier
                  scenario_map 3 (F64.dec 1 1) F64.zero 1 [("a", "c", 1)] "a" "b" 1 []
                  [F64.one; F64.zero] [F64.zero; F64.one]
                  ref_libm_guarded eq_refl eq_refl ltac:(simpl; lia)
                  ltac:(apply Forall_singleton; intros [_ [x Hx]]; vm_compute in Hx; discriminate)
                  ltac:(lia))).
Defined.

(** The two records without a usable id: the later one is the one bound. *)
Lemma load_applicants_last_record_wins_witness :
  exists m es,
    load_applicants_jsonl (loads_or_raise docs) float_of_decimal repr_opaque
      [line_no_id; line_null_id] = Ok m
    /\ length es = 2%nat
    /\ m !! "None" = snd <$> last (filter (fun e => e.1 = "None") (omap id es)).
Proof.
  destruct (load_applicants_jsonl (loads_or_raise docs) float_of_decimal repr_opaque
              [line_no_id; line_null_id]) as [m|e] eqn:Hload;
    [|vm_compute in Hload; discriminate].
  destruct (load_applicants_last_record_wins _ _ _ _ m Hload) as (es & Hes & Hm).
  exists m, es. split; [reflexivity|]. split; [|apply Hm].
  apply Forall2_length in Hes. rewrite <- Hes. reflexivity.
Defined.

(** Between two good lines, a line that is not JSON and a line nested
    deeper than the decoder goes. *)
Lemma bad_line_fails_the_load_witness :
  load_applicants_jsonl (loads_or_raise docs) float_of_decimal repr_opaque
    [line_no_id; "not json"; line_null_id] = Raise ValueError
  /\ load_applicants_jsonl loads_shallow float_of_decimal repr_opaque
       [line_no_id; line_nested; line_null_id] = Raise RecursionError.
Proof.
  split.
  - apply (bad_line_fails_the_load (loads_or_raise docs) float_of_decimal repr_opaque
             [line_no_id] "not json" [line_null_id] ValueError).
    + apply Forall_singleton. vm_compute. eexists. reflexivity.
    + vm_compute. reflexivity.
  - apply (bad_line_fails_the_load loads_shallow float_of_decimal repr_opaque
             [line_no_id] line_nested [line_null_id] RecursionError).
    + apply Forall_singleton. vm_compute. eexists. reflexivity.
    + vm_compute. reflexivity.
Defined.

Lemma short_row_identifier_is_None_witness :
  pair_of_row float_of_decimal row_without_i = Ok (Some ("None", "b", 1)).
Proof.
  apply (proj1 (short_row_identifier_is_None float_of_decimal row_without_i 1
                  ltac:(vm_compute; reflexivity) ltac:(right; reflexivity)));
    [reflexivity | discriminate].
Defined.

Lemma pairs_without_identifier_column_witness :
  load_pairs_csv float_of_decimal [row_no_i_column; row_no_i_column] = Ok [].
Proof.
  apply (pairs_without_identifier_column float_of_decimal). left.
  intros r Hr. apply elem_of_cons in Hr as [-> | Hr]; [reflexivity|].
  apply list_elem_of_singleton in Hr as ->. reflexivity.
Defined.

(** The sheet of three rows in [uni_timestamp] mode, and the one record that
    comes out of it read back. *)
Lemma every_written_record_is_loaded_witness :
  exists id2x,
    load_applicants_jsonl
      (loads_or_raise (<["record" := written_record MakeApplicants.uni_timestamp 1]> ∅))
      float_of_decimal repr_opaque ["record"] = Ok id2x
    /\ is_Some (id2x !! "ab1234_2024-01-05").
Proof.
  destruct (every_written_record_is_loaded (loads_table docs) (loads_table docs)
              float_of_decimal MakeApplicants.uni_timestamp
              [row_full; row_short; row_empty]
              {| MakeApplicants.out := [written_record MakeApplicants.uni_timestamp 1];
                 MakeApplicants.n_ok := 1; MakeApplicants.n_skip := 2 |}
              (loads_or_raise (<["record" := written_record MakeApplicants.uni_timestamp 1]> ∅))
              repr_opaque ["record"])
    as (id2x & Hload & Hin & _).
  - vm_compute. reflexivity.
  - constructor; [|constructor]. split; [discriminate | reflexivity].
  - exists id2x. split; [exact Hload|].
    destruct (Hin (written_record MakeApplicants.uni_timestamp 1)) as (id_ & Hid & _ & Hsome);
      [left|].
    vm_compute in Hid. injection Hid as <-. exact Hsome.
Defined.

(** The same sheet in [row] mode: row 1 is bound, rows 2 and 3 are not. *)
Lemma row_mode_round_trip_witness :
  exists id2x,
    load_applicants_jsonl
      (loads_or_raise (<["record" := written_record MakeApplicants.row 1]> ∅))
      float_of_decimal repr_opaque ["record"] = Ok id2x
    /\ id2x !! "1" = Some features_floats
    /\ id2x !! "2" = None
    /\ id2x !! "3" = None.
Proof.
  destruct (row_mode_round_trip (loads_table docs) (loads_table docs)
              float_of_decimal [row_full; row_short; row_empty]
              {| MakeApplicants.out := [written_record MakeApplicants.row 1];
                 MakeApplicants.n_ok := 1; MakeApplicants.n_skip := 2 |}
              (loads_or_raise (<["record" := written_record MakeApplicants.row 1]> ∅))
              repr_opaque ["record"])
    as (id2x & Hload & Hval & _).
  - vm_compute. reflexivity.
  - constructor; [|constructor]. split; [discriminate | reflexivity].
  - exists id2x. split; [exact Hload|].
    pose proof (Hval 0%nat row_full eq_refl) as H1.
    pose proof (Hval 1%nat row_short eq_refl) as H2.
    pose proof (Hval 2%nat row_empty eq_refl) as H3.
    vm_compute in H1, H2, H3. split; [|split]; assumption.
Defined.

(** The complete row written twice, as rows 1 and 2. *)
Lemma same_uni_and_timestamp_collide_witness :
  load_applicants_loop
    (loads_or_raise (<["first" := written_record MakeApplicants.uni_timestamp 1]>
                  (<["second" := written_record MakeApplicants.uni_timestamp 2]> ∅)))
    float_of_decimal repr_opaque ∅ ["first"; "second"]
  = Ok (<["ab1234_2024-01-05" := features_floats]> ∅).
Proof.
  apply (same_uni_and_timestamp_collide float_of_decimal 1 2 row_full row_full
           features_floats features_floats
           (loads_or_raise (<["first" := written_record MakeApplicants.uni_timestamp 1]>
                         (<["second" := written_record MakeApplicants.uni_timestamp 2]> ∅)))
           repr_opaque "first" "second" ∅);
    try discriminate; reflexivity.
Defined.

(** A uni cell that holds a no-break space only is empty once stripped: in
    [uni_timestamp] mode too the row is written under its row number. *)
Example white_space_uni_falls_back :
  MakeApplicants.record_id
    (MakeApplicants.applicant_obj MakeApplicants.uni_timestamp 7 row_blank_uni
       features_floats)
  = Some "7".
Proof. vm_compute. reflexivity. Qed.

(** A complete run on two applicants and one pair. *)
Lemma main_writes_model_only_on_success_witness :
  exists fs' printed,
    TrainRanker.main (loads_or_raise applicant_docs) float_of_decimal repr_opaque
      exp_ref log1p_ref sum_neumaier round_ref repr_opaque run_args
      ["applicant a"; "applicant b"] [pairs_row "a" "b" "1"] ∅
    = (fs', printed, Ok ())
    /\ is_Some (fs' !! "rank_model.json")
    /\ fs' !! "applicants.jsonl" = None
    /\ length printed = 3%nat.
Proof.
  destruct (TrainRanker.main (loads_or_raise applicant_docs) float_of_decimal repr_opaque
              exp_ref log1p_ref sum_neumaier round_ref repr_opaque run_args
              ["applicant a"; "applicant b"] [pairs_row "a" "b" "1"] ∅)
    as [[fs' printed] [[]|e]] eqn:Hmain; [|vm_compute in Hmain; discriminate].
  destruct (proj1 (main_writes_model_only_on_success _ _ _ _ _ _ _ _ _ _ _ _ _ _ _ Hmain)
              eq_refl)
    as (w & b & n & m & log & Hfs & _ & _ & Hother & Hprinted & Hlog).
  exists fs', printed. split; [reflexivity|]. split; [|split].
  - rewrite Hfs. cbn [arg_out run_args]. rewrite lookup_insert_eq. eexists. reflexivity.
  - rewrite Hother by discriminate. reflexivity.
  - rewrite Hprinted. cbn [length]. rewrite length_app, length_map, Hlog. reflexivity.
Defined.

(** The same run on an applicants file without lines. *)
Lemma main_exits_without_usable_pairs_witness :
  exists m,
    TrainRanker.main (loads_or_raise applicant_docs) float_of_decimal repr_opaque
      exp_ref log1p_ref sum_neumaier round_ref repr_opaque run_args
      [] [pairs_row "a" "b" "1"] ∅
    = (∅, [Loaded 0 m], Raise (SystemExit no_usable_pairs)).
Proof.
  apply (proj2 (main_exits_without_usable_pairs (loads_or_raise applicant_docs)
                  float_of_decimal repr_opaque exp_ref log1p_ref sum_neumaier
                  round_ref repr_opaque run_args [] [pairs_row "a" "b" "1"] ∅
                  ltac:(cbn; lia))).
Defined.

(** ** The applicants loader: blank lines *)

Section ApplicantsLoaderBlank.

Variable json_loads : string -> result pyval.
Variable float_of_str : string -> option float.
Variable py_repr : pyval -> string.

Local Abbreviation load_applicants_loop :=
  (TrainRanker.load_applicants_loop json_loads float_of_str py_repr).
Local Abbreviation load_applicants_jsonl :=
  (TrainRanker.load_applicants_jsonl json_loads float_of_str py_repr).

(** X9: A line that is empty once stripped is never handed to [json.loads]: it
    can stand anywhere in the file, or be taken out, without changing what
    the loader returns or raises; a file of such lines only loads as the
    empty map. *)
Theorem blank_lines_are_ignored (lines1 lines2 : list string) (blank : string) :
  strip blank = "" ->
  load_applicants_jsonl (lines1 ++ blank :: lines2)
  = load_applicants_jsonl (lines1 ++ lines2)
  /\ load_applicants_jsonl [blank] = Ok ∅.
Proof.
  intros Hblank.
  assert (Hstep : forall id2x,
            TrainRanker.applicant_step json_loads float_of_str py_repr id2x blank = Ok id2x).
  { intros id2x. unfold TrainRanker.applicant_step, TrainRanker.applicant_entry.
    rewrite decide_True by exact Hblank. reflexivity. }
  split.
  - unfold TrainRanker.load_applicants_jsonl.
    rewrite !(load_applicants_loop_app json_loads float_of_str py_repr).
    destruct (load_applicants_loop ∅ lines1) as [m|e]; [|reflexivity].
    cbn [mbind result_bind TrainRanker.load_applicants_loop].
    rewrite Hstep. reflexivity.
  - unfold TrainRanker.load_applicants_jsonl. cbn [TrainRanker.load_applicants_loop].
    rewrite Hstep. reflexivity.
Qed.

End ApplicantsLoaderBlank.

(** A line of spaces, and a line of a no-break space, a tab, a line
    separator and an ideographic space, between the two records without a
    usable id. *)
Lemma blank_lines_are_ignored_witness :
  load_applicants_jsonl (loads_or_raise docs) float_of_decimal repr_opaque
    [line_no_id; "   "; line_null_id]
  = load_applicants_jsonl (loads_or_raise docs) float_of_decimal repr_opaque
      [line_no_id; line_null_id]
  /\ load_applicants_jsonl (loads_or_raise docs) float_of_decimal repr_opaque
       [line_no_id; line_of_white_space; line_null_id]
     = load_applicants_jsonl (loads_or_raise docs) float_of_decimal repr_opaque
         [line_no_id; line_null_id].
Proof.
  split.
  - apply (proj1 (blank_lines_are_ignored (loads_or_raise docs) float_of_decimal
                    repr_opaque [line_no_id] [line_null_id] "   " eq_refl)).
  - apply (proj1 (blank_lines_are_ignored (loads_or_raise docs) float_of_decimal
                    repr_opaque [line_no_id] [line_null_id] line_of_white_space
                    ltac:(vm_compute; reflexivity))).
Defined.
